(** * Bricklayers: the G-code rewriting pass of [bricklayers.py]

    A shallow embedding of [detect_printer_type], [get_z_height_from_comment]
    and the line loop of [process_gcode], followed by the properties of the
    pass.

    Conventions of the model.
    - A line is a [string]; its characters are the code points below 256, on
      which Python's [\d] is exactly [0-9].
    - A Python [float] is an IEEE 754 binary64 number, [spec_float] with
      precision 53 and maximal exponent 1024; [float(s)] and the [.3f] / [.5f]
      formats are the correctly rounded conversions.
    - An exception is a value: fallible code returns [result].
    - [process_gcode] reads the file into [lines] and writes [modified_lines]
      back; here the lines are the argument and the written lines the result. *)

From Stdlib Require Import ZArith NArith List String Ascii Bool Lia.
From Stdlib Require Import SpecFloat DecimalString.
Import ListNotations.

Local Open Scope list_scope.
Local Open Scope string_scope.

(** ** Exceptions *)

Inductive exn : Type :=
| ValueError
| IndexError.

Inductive result (A : Type) : Type :=
| Ok (a : A)
| Raise (e : exn).

Arguments Ok {A} a.
Arguments Raise {A} e.

Definition bind {A B : Type} (r : result A) (k : A -> result B) : result B :=
  match r with
  | Ok a => k a
  | Raise e => Raise e
  end.

Notation "'let*' x ':=' r 'in' k" := (bind r (fun x => k))
  (at level 10, x pattern, r at level 100, k at level 200).

(** ** Strings as Python uses them *)

Module Str.

(** [needle in hay] *)
Fixpoint contains (needle hay : string) : bool :=
  prefix needle hay ||
  match hay with
  | EmptyString => false
  | String _ rest => contains needle rest
  end.

(** [s.startswith(p)] *)
Definition startswith (p s : string) : bool := prefix p s.

(** The longest run of characters of class [cls] at the head of [s], as a
    greedy [[...]+] under a match takes it. *)
Fixpoint take_while (cls : ascii -> bool) (s : string) : string :=
  match s with
  | EmptyString => EmptyString
  | String c rest => if cls c then String c (take_while cls rest) else EmptyString
  end.

(** [str.isspace] on one character below 256: tab to carriage return, the
    four separators 0x1c-0x1f, space, NEL and the no-break space. *)
Definition isspace (c : ascii) : bool :=
  let n := N_of_ascii c in
  ((9 <=? n) && (n <=? 13) || (28 <=? n) && (n <=? 32) || (n =? 133) || (n =? 160))%N.

Fixpoint lstrip (s : string) : string :=
  match s with
  | EmptyString => EmptyString
  | String c rest => if isspace c then lstrip rest else s
  end.

(** Drops the trailing white space: a character is kept when something
    that is not white space follows it or it is itself not white space. *)
Fixpoint rstrip (s : string) : string :=
  match s with
  | EmptyString => EmptyString
  | String c rest =>
      match rstrip rest with
      | EmptyString => if isspace c then EmptyString else String c EmptyString
      | kept => String c kept
      end
  end.

(** [s.strip()] *)
Definition strip (s : string) : string := rstrip (lstrip s).

Fixpoint repeat (c : ascii) (n : nat) : string :=
  match n with
  | O => EmptyString
  | S k => String c (repeat c k)
  end.

(** [s.rjust(width, c)] *)
Definition rjust (width : nat) (c : ascii) (s : string) : string :=
  repeat c (width - String.length s) ++ s.

End Str.

(** ** The regular expressions of the source *)

Module Re.

(** [\d] *)
Definition is_digit (c : ascii) : bool :=
  let n := N_of_ascii c in ((48 <=? n) && (n <=? 57))%N.

(** [[\d.]] *)
Definition digit_or_dot (c : ascii) : bool :=
  is_digit c || Ascii.eqb c "."%char.

(** [[-\d.]] *)
Definition sign_digit_or_dot (c : ascii) : bool :=
  Ascii.eqb c "-"%char || digit_or_dot c.

(** [re.search(lit + '(' + [cls]+ + ')', s)], the group of the leftmost
    match: the first position where [lit] is followed by at least one
    character of the class, and there the longest run of them. *)
Fixpoint search_group (lit : string) (cls : ascii -> bool) (s : string) : option string :=
  let here :=
    if prefix lit s then
      match Str.take_while cls (substring (String.length lit) (String.length s) s) with
      | EmptyString => None
      | g => Some g
      end
    else None in
  match here with
  | Some g => Some g
  | None =>
      match s with
      | EmptyString => None
      | String _ rest => search_group lit cls rest
      end
  end.

(** [re.sub(c + [cls]+, repl, s)] for a one-character literal [c] outside
    the class: every match, left to right, is replaced by [repl].  The flag
    [in_match] is true while the characters of a match already replaced are
    being skipped. *)
Fixpoint sub_from (c : ascii) (cls : ascii -> bool) (repl : string)
         (in_match : bool) (s : string) : string :=
  match s with
  | EmptyString => EmptyString
  | String a rest =>
      if in_match && cls a then sub_from c cls repl true rest
      else
        let starts :=
          Ascii.eqb a c &&
          match rest with
          | EmptyString => false
          | String b _ => cls b
          end in
        if starts then repl ++ sub_from c cls repl true rest
        else String a (sub_from c cls repl false rest)
  end.

Definition sub (c : ascii) (cls : ascii -> bool) (repl s : string) : string :=
  sub_from c cls repl false s.

End Re.

(** ** Binary64 floating point, as Python's [float] *)

Module Float.

Definition prec : Z := 53.
Definition emax : Z := 1024.

Definition float : Type := spec_float.

(** [x * y] and [x + y] *)
Definition mul (x y : float) : float := SFmul prec emax x y.
Definition add (x y : float) : float := SFadd prec emax x y.

(** The binary64 number nearest to [n / 10^k] (ties to even), signed. *)
Definition of_decimal (neg : bool) (n : N) (k : nat) : float :=
  match n with
  | N0 => S754_zero neg
  | Npos _ =>
      let '(m, e, l) :=
        SFdiv_core_binary prec emax (Z.of_N n) 0 (10 ^ Z.of_nat k) 0 in
      binary_round_aux prec emax neg m e l
  end.

(** The value of a string of decimal digits. *)
Fixpoint digits_value (acc : N) (s : string) : N :=
  match s with
  | EmptyString => acc
  | String c rest => digits_value (10 * acc + (N_of_ascii c - 48))%N rest
  end.

Fixpoint drop (n : nat) (s : string) : string :=
  match n, s with
  | O, _ => s
  | S k, EmptyString => EmptyString
  | S k, String _ rest => drop k rest
  end.

(** [float(s)] for the strings the number patterns of the source capture,
    made of digits, [.] and [-]: an optional leading [-], then digits with
    at most one [.] among them and at least one digit; anything else is a
    [ValueError].  The value is correctly rounded, and too large a number
    is an infinity. *)
Definition of_string (s : string) : result float :=
  let '(neg, body) :=
    match s with
    | String "-"%char r => (true, r)
    | _ => (false, s)
    end in
  let ip := Str.take_while Re.is_digit body in
  let after := drop (String.length ip) body in
  let '(fp, tail) :=
    match after with
    | String "."%char r =>
        let fp := Str.take_while Re.is_digit r in
        (fp, drop (String.length fp) r)
    | _ => (EmptyString, after)
    end in
  match tail, ip ++ fp with
  | EmptyString, String _ _ =>
      Ok (of_decimal neg (digits_value 0 (ip ++ fp)) (String.length fp))
  | _, _ => Raise ValueError
  end.

(** [n] rounded to the nearest multiple of [d], ties to even, divided by
    [d]. *)
Definition div_half_even (n d : Z) : Z :=
  let q := (n / d)%Z in
  let r := (n mod d)%Z in
  match (2 * r ?= d)%Z with
  | Lt => q
  | Gt => (q + 1)%Z
  | Eq => if Z.even q then q else (q + 1)%Z
  end.

(** [|x| * 10^p] rounded to an integer, for finite [x = m * 2^e]. *)
Definition scaled (p : nat) (m : positive) (e : Z) : Z :=
  let n := (Zpos m * 10 ^ Z.of_nat p)%Z in
  match e with
  | Zneg k => div_half_even n (2 ^ Zpos k)
  | _ => (n * 2 ^ e)%Z
  end.

Definition decimal (n : Z) : string :=
  NilEmpty.string_of_uint (N.to_uint (Z.to_N n)).

(** The digits of [q / 10^p] with [p] decimals. *)
Definition fixed (p : nat) (q : Z) : string :=
  let unit := (10 ^ Z.of_nat p)%Z in
  decimal (q / unit) ++
  match p with
  | O => EmptyString
  | S _ => "." ++ Str.rjust p "0"%char (decimal (q mod unit))
  end.

Definition sign (s : bool) : string := if s then "-" else "".

(** [format(x, '.<p>f')] *)
Definition format_f (p : nat) (x : float) : string :=
  match x with
  | S754_nan => "nan"
  | S754_infinity s => sign s ++ "inf"
  | S754_zero s => sign s ++ fixed p 0
  | S754_finite s m e => sign s ++ fixed p (scaled p m e)
  end.

(** The literals [0.0] and [0.5] of the source. *)
Definition zero : float := S754_zero false.
Definition half : float := S754_finite false 4503599627370496 (-53).

End Float.

(** ** [detect_printer_type] *)

Definition LF : string := String "010"%char EmptyString.

Inductive printer : Type :=
| bambu
| prusa.

Fixpoint detect_printer_type (gcode_lines : list string) : printer :=
  match gcode_lines with
  | [] => prusa
  | line :: rest =>
      if Str.contains "; FEATURE:" line then bambu
      else if Str.contains ";TYPE:" line then prusa
      else detect_printer_type rest
  end.

(** The two dialects of the marker vocabulary: dialect A writes its feature
    tags [; FEATURE:], dialect B writes them [;TYPE:]. *)
Definition DialectA : printer := bambu.
Definition DialectB : printer := prusa.

(** ** [get_z_height_from_comment] *)

Definition get_z_height_from_comment (line : string) : result (option Float.float) :=
  if Str.contains "; Z_HEIGHT:" line then
    match Re.search_group "; Z_HEIGHT: " Re.digit_or_dot line with
    | Some g => let* z := Float.of_string g in Ok (Some z)
    | None => Ok None
    end
  else if Str.contains ";Z:" line then
    match Re.search_group ";Z:" Re.digit_or_dot line with
    | Some g => let* z := Float.of_string g in Ok (Some z)
    | None => Ok None
    end
  else Ok None.

(** ** The state of [process_gcode] *)

Inductive wall : Type :=
| internal
| external.

(** What a synthetic line is emitted for; its comment in the output. *)
Inductive purpose : Type :=
| ShiftInnerWall
| ResetObjectEnd
| ResetFeatureTransition
| ResetOuterWall
| ResetAfterInnerWall.

(** An element of [modified_lines]: a synthetic [G1 Z..] line, kept with its
    height until it is written, or a line of text. *)
Inductive out_line : Type :=
| Synthetic (p : purpose) (z : Float.float)
| Text (line : string).

Definition comment (p : purpose) : string :=
  match p with
  | ShiftInnerWall => "Z shift for inner wall"
  | ResetObjectEnd => "Reset Z at object end"
  | ResetFeatureTransition => "Reset Z for feature transition"
  | ResetOuterWall => "Reset Z for outer wall"
  | ResetAfterInnerWall => "Reset Z after inner wall"
  end.

(** The f-string of a synthetic line. *)
Definition synthetic_text (p : purpose) (z : Float.float) : string :=
  "G1 Z" ++ Float.format_f 3 z ++ " F1200 ; " ++ comment p ++ LF.

Definition render (o : out_line) : string :=
  match o with
  | Synthetic p z => synthetic_text p z
  | Text line => line
  end.

Record state : Type := mkState {
  current_layer : N;
  current_z : Float.float;
  perimeter_type : option wall;
  perimeter_block_count : N;
  inside_perimeter_block : bool;
  perimeter_found : bool;
  modified_lines : list out_line;
  shifted_blocks : N;
  in_object : bool
}.

Definition initial : state :=
  {| current_layer := 0;
     current_z := Float.zero;
     perimeter_type := None;
     perimeter_block_count := 0;
     inside_perimeter_block := false;
     perimeter_found := false;
     modified_lines := [];
     shifted_blocks := 0;
     in_object := false |}.

Definition set_current_layer (v : N) (st : state) : state :=
  mkState v (current_z st) (perimeter_type st) (perimeter_block_count st)
          (inside_perimeter_block st) (perimeter_found st) (modified_lines st)
          (shifted_blocks st) (in_object st).

Definition set_current_z (v : Float.float) (st : state) : state :=
  mkState (current_layer st) v (perimeter_type st) (perimeter_block_count st)
          (inside_perimeter_block st) (perimeter_found st) (modified_lines st)
          (shifted_blocks st) (in_object st).

Definition set_perimeter_type (v : option wall) (st : state) : state :=
  mkState (current_layer st) (current_z st) v (perimeter_block_count st)
          (inside_perimeter_block st) (perimeter_found st) (modified_lines st)
          (shifted_blocks st) (in_object st).

Definition set_perimeter_block_count (v : N) (st : state) : state :=
  mkState (current_layer st) (current_z st) (perimeter_type st) v
          (inside_perimeter_block st) (perimeter_found st) (modified_lines st)
          (shifted_blocks st) (in_object st).

Definition set_inside_perimeter_block (v : bool) (st : state) : state :=
  mkState (current_layer st) (current_z st) (perimeter_type st)
          (perimeter_block_count st) v (perimeter_found st) (modified_lines st)
          (shifted_blocks st) (in_object st).

Definition set_perimeter_found (v : bool) (st : state) : state :=
  mkState (current_layer st) (current_z st) (perimeter_type st)
          (perimeter_block_count st) (inside_perimeter_block st) v
          (modified_lines st) (shifted_blocks st) (in_object st).

Definition set_shifted_blocks (v : N) (st : state) : state :=
  mkState (current_layer st) (current_z st) (perimeter_type st)
          (perimeter_block_count st) (inside_perimeter_block st)
          (perimeter_found st) (modified_lines st) v (in_object st).

Definition set_in_object (v : bool) (st : state) : state :=
  mkState (current_layer st) (current_z st) (perimeter_type st)
          (perimeter_block_count st) (inside_perimeter_block st)
          (perimeter_found st) (modified_lines st) (shifted_blocks st) v.

(** [modified_lines.append(o)] *)
Definition append (o : out_line) (st : state) : state :=
  mkState (current_layer st) (current_z st) (perimeter_type st)
          (perimeter_block_count st) (inside_perimeter_block st)
          (perimeter_found st) (modified_lines st ++ [o])
          (shifted_blocks st) (in_object st).

(** ** The markers tested on each line *)

Definition is_object_start (line : string) : bool :=
  Str.contains "M624" line || Str.contains "EXCLUDE_OBJECT_START" line.

Definition is_object_end (line : string) : bool :=
  Str.contains "M625" line || Str.contains "EXCLUDE_OBJECT_END" line.

Definition is_layer_change (line : string) : bool :=
  Str.contains "; CHANGE_LAYER" line || Str.contains ";LAYER_CHANGE" line.

Definition is_feature (line : string) : bool :=
  Str.contains "; FEATURE:" line || Str.contains ";TYPE:" line.

Definition is_inner_wall (line : string) : bool :=
  Str.contains "; FEATURE: Inner wall" line || Str.contains ";TYPE:Inner wall" line.

Definition is_outer_wall (line : string) : bool :=
  Str.contains "; FEATURE: Outer wall" line || Str.contains ";TYPE:Outer wall" line.

(** [line.startswith("G1") and "X" in line and "Y" in line] *)
Definition is_move (line : string) : bool :=
  Str.startswith "G1" line && Str.contains "X" line && Str.contains "Y" line.

(** ** The body of the line loop *)

Definition is_internal (p : option wall) : bool :=
  match p with
  | Some internal => true
  | _ => false
  end.

(** [lines[i]] *)
Definition getitem (lines : list string) (i : nat) : result string :=
  match nth_error lines i with
  | Some line => Ok line
  | None => Raise IndexError
  end.

(** [get_z_height_from_comment(lines[line_num + 1]) if line_num + 1 <
    len(lines) else None] *)
Definition lookahead (lines : list string) (line_num : nat) : result (option Float.float) :=
  if (line_num + 1 <? List.length lines)%nat then
    let* next := getitem lines (line_num + 1) in
    get_z_height_from_comment next
  else Ok None.

Section Pass.

Variable z_shift : Float.float.
Variable extrusion_multiplier : Float.float.

(** Track object printing sections. *)
Definition track_object (line : string) (st : state) : state :=
  if is_object_start line then
    set_perimeter_block_count 0 (set_in_object true st)
  else if is_object_end line then
    let st := set_in_object false st in
    if inside_perimeter_block st then
      set_inside_perimeter_block false
        (append (Synthetic ResetObjectEnd (current_z st)) st)
    else st
  else st.

(** Check for layer changes and Z height updates. *)
Definition track_layer (lines : list string) (line_num : nat) (line : string)
           (st : state) : result state :=
  if is_layer_change line then
    let* z_height := lookahead lines line_num in
    match z_height with
    | Some z =>
        Ok (set_perimeter_block_count 0
              (set_current_layer (current_layer st + 1)%N
                 (set_current_z z st)))
    | None => Ok st
    end
  else Ok st.

(** Detect wall transitions. *)
Definition detect_wall (line : string) (st : state) : state :=
  if is_feature line then
    let st :=
      if inside_perimeter_block st then
        set_inside_perimeter_block false
          (append (Synthetic ResetFeatureTransition (current_z st)) st)
      else st in
    if is_inner_wall line then
      set_perimeter_found true (set_perimeter_type (Some internal) st)
    else if is_outer_wall line then
      let st := set_perimeter_type (Some external) st in
      if inside_perimeter_block st then
        set_inside_perimeter_block false
          (append (Synthetic ResetOuterWall (current_z st)) st)
      else st
    else set_perimeter_type None st
  else st.

(** Adjust extrusion: the line with its E values rewritten, or the line as
    it is when it has no [E] followed by a number. *)
Definition adjust_extrusion (line : string) : result string :=
  match Re.search_group "E" Re.sign_digit_or_dot line with
  | Some g =>
      let* e_value := Float.of_string g in
      let new_e_value := Float.mul e_value extrusion_multiplier in
      Ok (Re.sub "E"%char Re.sign_digit_or_dot
            ("E" ++ Float.format_f 5 new_e_value) (Str.strip line)
          ++ " ; Adjusted E for inner wall" ++ LF)
  | None => Ok line
  end.

(** Handle Z shifts for internal perimeters; gives the state and the line
    to append. *)
Definition shift_inner_wall (line : string) (st : state) : result (state * string) :=
  if is_internal (perimeter_type st) && is_move line then
    if Str.contains "E" line then
      if negb (inside_perimeter_block st) then
        let st := set_perimeter_block_count (perimeter_block_count st + 1)%N st in
        let st := set_inside_perimeter_block true st in
        let adjusted_z := Float.add (current_z st) z_shift in
        let st := append (Synthetic ShiftInnerWall adjusted_z) st in
        let st := set_shifted_blocks (shifted_blocks st + 1)%N st in
        let* line := adjust_extrusion line in
        Ok (st, line)
      else Ok (st, line)
    else if Str.contains "F" line && negb (Str.contains "E" line)
            && inside_perimeter_block st then
      Ok (set_inside_perimeter_block false
            (append (Synthetic ResetAfterInnerWall (current_z st)) st),
          line)
    else Ok (st, line)
  else Ok (st, line).

(** One iteration of [for line_num, line in enumerate(lines)]. *)
Definition process_line (lines : list string) (line_num : nat) (line : string)
           (st : state) : result state :=
  let st := track_object line st in
  let* st := track_layer lines line_num line st in
  let* (st, line) :=
    if in_object st then shift_inner_wall line (detect_wall line st)
    else Ok (st, line) in
  Ok (append (Text line) st).

(** The iterations over the lines [todo] still to come, the first of them
    at index [line_num]. *)
Fixpoint loop (lines : list string) (line_num : nat) (todo : list string)
         (st : state) : result state :=
  match todo with
  | [] => Ok st
  | line :: rest =>
      let* st := process_line lines line_num line st in
      loop lines (S line_num) rest st
  end.

End Pass.

(** The pass of [process_gcode] over the lines read from the file: the state
    when the loop ends. *)
Definition run (lines : list string) (layer_height extrusion_multiplier : Float.float)
  : result state :=
  let z_shift := Float.mul layer_height Float.half in
  loop z_shift extrusion_multiplier lines 0 lines initial.

(** What [outfile.writelines(modified_lines)] writes. *)
Definition written (st : state) : list string := map render (modified_lines st).

(** [process_gcode] from the lines of the input file to the lines written
    back to it. *)
Definition process_gcode (lines : list string)
           (layer_height extrusion_multiplier : Float.float) : result (list string) :=
  let printer_type := detect_printer_type lines in
  let* st := run lines layer_height extrusion_multiplier in
  Ok (written st).

(** ** Notions used to state the properties *)

(** The floats written [0.2], [1.0] and [2.0]. *)
Definition float_0_2 : Float.float := S754_finite false 7205759403792794 (-55).
Definition float_1_0 : Float.float := S754_finite false 4503599627370496 (-52).
Definition float_2_0 : Float.float := S754_finite false 4503599627370496 (-51).

(** The state once a block is opened on an extrusion move: the counters
    incremented, the flag set and the shift line appended. *)
Definition open_block (z_shift : Float.float) (st : state) : state :=
  set_shifted_blocks (shifted_blocks st + 1)%N
    (append (Synthetic ShiftInnerWall (Float.add (current_z st) z_shift))
       (set_inside_perimeter_block true
          (set_perimeter_block_count (perimeter_block_count st + 1)%N st))).

(** The state once an open block is closed with a reset line for [p]. *)
Definition close_block (p : purpose) (st : state) : state :=
  set_inside_perimeter_block false (append (Synthetic p (current_z st)) st).

(** A line with neither feature marker. *)
Definition no_feature_marker (line : string) : Prop := is_feature line = false.

(** The number after a Z comment in the line, if there is one, converts. *)
Definition z_comment_ok (line : string) : bool :=
  match get_z_height_from_comment line with
  | Ok _ => true
  | Raise _ => false
  end.

(** The number after the first [E] of the line, if there is one, converts. *)
Definition e_field_ok (line : string) : bool :=
  match Re.search_group "E" Re.sign_digit_or_dot line with
  | Some g =>
      match Float.of_string g with
      | Ok _ => true
      | Raise _ => false
      end
  | None => true
  end.

Definition numbers_ok (line : string) : bool := z_comment_ok line && e_field_ok line.

(** The line has an extrusion field, an [E] followed by a number, as the
    pattern of the rewrite finds it. *)
Definition has_e_field (line : string) : bool :=
  match Re.search_group "E" Re.sign_digit_or_dot line with
  | Some _ => true
  | None => false
  end.

Definition is_shift (o : out_line) : bool :=
  match o with
  | Synthetic ShiftInnerWall _ => true
  | _ => false
  end.

Definition is_reset (o : out_line) : bool :=
  match o with
  | Synthetic ShiftInnerWall _ => false
  | Synthetic _ _ => true
  | Text _ => false
  end.

(** The number of shift lines, one per opened block, and of reset lines. *)
Definition opened_blocks (out : list out_line) : nat := List.length (filter is_shift out).
Definition reset_lines (out : list out_line) : nat := List.length (filter is_reset out).

(** Reads the synthetic lines of [out] in order, from a block open or not: a
    shift line must come with no block open and opens one, a reset line must
    come with a block open and closes it.  [Some b] when every synthetic line
    is in its place, with [b] telling whether a block is open at the end. *)
Fixpoint blocks (opened : bool) (out : list out_line) : option bool :=
  match out with
  | [] => Some opened
  | Text _ :: rest => blocks opened rest
  | Synthetic ShiftInnerWall _ :: rest => if opened then None else blocks true rest
  | Synthetic _ _ :: rest => if opened then blocks false rest else None
  end.

(** What the pass writes for one input line: synthetic lines, then the line
    itself, or synthetic lines the last of which is a shift line, then the
    line with its extrusion rewritten and annotated. *)
Inductive chunk_for (extrusion_multiplier : Float.float) (line : string)
  : list string -> Prop :=
| chunk_passed (ins : list (purpose * Float.float)) :
    chunk_for extrusion_multiplier line
      (map (fun pz => synthetic_text (fst pz) (snd pz)) ins ++ [line])
| chunk_rewritten (ins : list (purpose * Float.float)) (z : Float.float)
    (g : string) (e_value : Float.float) :
    is_move line = true ->
    Re.search_group "E" Re.sign_digit_or_dot line = Some g ->
    Float.of_string g = Ok e_value ->
    chunk_for extrusion_multiplier line
      (map (fun pz => synthetic_text (fst pz) (snd pz)) ins
       ++ [synthetic_text ShiftInnerWall z;
           Re.sub "E"%char Re.sign_digit_or_dot
             ("E" ++ Float.format_f 5 (Float.mul e_value extrusion_multiplier))
             (Str.strip line)
           ++ " ; Adjusted E for inner wall" ++ LF]).

(** The invariant of the loop on blocks: the synthetic lines written so far
    alternate between shift and reset, ending with a block open exactly when
    [inside_perimeter_block] says so; a block is open only on an inner wall
    inside an object; no reset line comes from the outer-wall branch; and
    [shifted_blocks] counts the shift lines. *)
Record well_formed (st : state) : Prop := {
  wf_blocks : blocks false (modified_lines st) = Some (inside_perimeter_block st);
  wf_inside : inside_perimeter_block st = true ->
              perimeter_type st = Some internal /\ in_object st = true;
  wf_outer : Forall (fun o => forall z, o <> Synthetic ResetOuterWall z) (modified_lines st);
  wf_count : N.of_nat (opened_blocks (modified_lines st)) = shifted_blocks st
}.

(** The synthetic lines [ins] as elements of [modified_lines]. *)
Definition synthetics (ins : list (purpose * Float.float)) : list out_line :=
  map (fun pz => Synthetic (fst pz) (snd pz)) ins.

(** ** Sample states and files *)

(** A state inside an object, on an inner wall at height [1.0], with a block
    open or not. *)
Definition on_inner_wall (inside : bool) : state :=
  {| current_layer := 1;
     current_z := float_1_0;
     perimeter_type := Some internal;
     perimeter_block_count := 0;
     inside_perimeter_block := inside;
     perimeter_found := true;
     modified_lines := [];
     shifted_blocks := 0;
     in_object := true |}.

(** An object at height [1.0] with one inner-wall extrusion move. *)
Definition scenario_A : list string :=
  ["M624" ++ LF; ";LAYER_CHANGE" ++ LF; ";Z:1.0" ++ LF;
   "; FEATURE: Inner wall" ++ LF; "G1 X1 Y1 E0.5" ++ LF].

Definition scenario_A_written : list string :=
  ["M624" ++ LF; ";LAYER_CHANGE" ++ LF; ";Z:1.0" ++ LF;
   "; FEATURE: Inner wall" ++ LF;
   "G1 Z1.100 F1200 ; Z shift for inner wall" ++ LF;
   "G1 X1 Y1 E1.00000 ; Adjusted E for inner wall" ++ LF].

(** The pass run on [scenario_A_written]. *)
Definition scenario_A_written_twice : list string :=
  ["M624" ++ LF; ";LAYER_CHANGE" ++ LF; ";Z:1.0" ++ LF;
   "; FEATURE: Inner wall" ++ LF;
   "G1 Z1.100 F1200 ; Z shift for inner wall" ++ LF;
   "G1 Z1.100 F1200 ; Z shift for inner wall" ++ LF;
   "G1 X1 Y1 E2.00000 ; Adjusted E for inner wall ; Adjusted E for inner wall" ++ LF].

(** A file with neither feature marker. *)
Definition unmarked : list string :=
  ["G28" ++ LF; ";LAYER_CHANGE" ++ LF; ";Z:0.2" ++ LF; "M624" ++ LF;
   "G1 X1 Y1 E1" ++ LF; "G1 X2 Y2 F2400" ++ LF; "M625" ++ LF].

(** Scenario A followed by a feed-rate line without coordinates, and what
    the pass writes for it. *)
Definition scenario_B : list string := List.app scenario_A ["G1 F2400" ++ LF].

Definition scenario_B_written : list string :=
  List.app scenario_A_written ["G1 F2400" ++ LF].

(** An object closed while its inner wall is the current feature. *)
Definition closed_object : list string :=
  ["M624" ++ LF; "; FEATURE: Inner wall" ++ LF; "M625" ++ LF].


(** The Z lookahead of the line at [line_num], if it has a layer-change
    marker, does not fail. *)
Definition z_lookahead_ok (lines : list string) (line_num : nat) (line : string) : bool :=
  negb (is_layer_change line) ||
  match lookahead lines line_num with
  | Ok _ => true
  | Raise _ => false
  end.

(** ** The closing log record and further notions *)

Inductive level : Type :=
| INFO
| WARNING.

(** The record logged when the loop is over: a warning when no inner wall
    was found, the count of modified blocks and layers otherwise. *)
Definition final_log (st : state) : level * string :=
  if negb (perimeter_found st) then
    (WARNING, "No internal perimeters found in the file.")
  else
    (INFO,
     "Processing complete: Modified " ++ Float.decimal (Z.of_N (shifted_blocks st))
     ++ " blocks across " ++ Float.decimal (Z.of_N (current_layer st)) ++ " layers").

(** Every character of [s] is of class [cls]. *)
Fixpoint all_chars (cls : ascii -> bool) (s : string) : bool :=
  match s with
  | EmptyString => true
  | String c rest => cls c && all_chars cls rest
  end.

(** A height is read from the line. *)
Definition reads_height (line : string) : bool :=
  match get_z_height_from_comment line with
  | Ok (Some _) => true
  | _ => false
  end.

(** The layer-change marker lines of the file that are followed by a line
    from which a height is read. *)
Fixpoint layer_changes (lines : list string) : N :=
  match lines with
  | [] => 0
  | line :: rest =>
      ((if is_layer_change line
           && match rest with
              | next :: _ => reads_height next
              | [] => false
              end
        then 1 else 0)
       + layer_changes rest)%N
  end.

Definition is_text (o : out_line) : bool :=
  match o with
  | Text _ => true
  | Synthetic _ _ => false
  end.

(** The feature a marker line names. *)
Definition feature_of (line : string) : option wall :=
  if is_inner_wall line then Some internal
  else if is_outer_wall line then Some external
  else None.

(** An inner wall and its moves with no object around them. *)
Definition no_object : list string :=
  ["; FEATURE: Inner wall" ++ LF; "G1 X1 Y1 E0.5" ++ LF; "G1 X2 Y2 F2400" ++ LF].

(** A layer change followed by a height that is not a number. *)
Definition malformed_height : list string :=
  ["; CHANGE_LAYER" ++ LF; "; Z_HEIGHT: 1.2.3" ++ LF].

(** The outcome [r] of an iteration on [line] from [st0] is a state in
    which the block open in [st0] is closed, the reset line for [p] at the
    height of [st0] and then the line itself being what was appended. *)
Definition closed_by (p : purpose) (line : string) (st0 : state) (r : result state) : Prop :=
  exists st1,
    r = Ok st1 /\
    modified_lines st1 =
      List.app (modified_lines st0) [Synthetic p (current_z st0); Text line] /\
    inside_perimeter_block st1 = false.

(** An object with three inner-wall blocks, closed in turn by a travel move,
    by a feature marker and by the end of the object. *)
Definition three_blocks : list string :=
  ["M624" ++ LF; ";LAYER_CHANGE" ++ LF; ";Z:1.0" ++ LF;
   "; FEATURE: Inner wall" ++ LF; "G1 X1 Y1 E0.5" ++ LF; "G1 X2 Y2 F2400" ++ LF;
   "G1 X3 Y3 E0.5" ++ LF; ";TYPE:Outer wall" ++ LF;
   "; FEATURE: Inner wall" ++ LF; "G1 X1 Y1 E0.5" ++ LF; "M625" ++ LF].

(** An inner-wall move whose comment has text that looks like extrusion
    fields, and blanks at its end; the file with it, and the line written
    for it. *)
Definition annotated_move : string :=
  "G1 X1 Y1 E0.5 F1800 ; see E2.5 and TEMPERATURE-1  " ++ LF.

Definition annotated_file : list string :=
  ["M624" ++ LF; "; FEATURE: Inner wall" ++ LF; annotated_move].

Definition annotated_move_written : string :=
  "G1 X1 Y1 E1.00000 F1800 ; see E1.00000 and TEMPERATURE1.00000 ; Adjusted E for inner wall"
  ++ LF.

(** Files whose last line has a layer-change marker and in which a number
    does not convert: after an earlier marker, and on the last line itself. *)
Definition malformed_before_last_marker : list string :=
  [";LAYER_CHANGE" ++ LF; ";Z:1.2.3" ++ LF; ";LAYER_CHANGE" ++ LF].

Definition malformed_on_last_marker : list string :=
  ["M624" ++ LF; "; FEATURE: Inner wall" ++ LF; "G1 X1 Y1 E1.2.3 ;LAYER_CHANGE" ++ LF].

(** * Properties *)

(** ** Substrings *)

Lemma prefix_app (n h : string) :
  prefix n h = true <-> exists post, h = n ++ post.
Proof.
  revert h; induction n as [|a n IH]; intros h; simpl.
  - destruct h; split; eauto.
  - destruct h as [|b h].
    + split; [discriminate | intros [post H]; discriminate].
    + simpl. destruct (ascii_dec a b) as [->|Hne].
      * rewrite IH. split; intros [post H]; exists post; [now rewrite H | now injection H].
      * split; [discriminate | intros [post H]; injection H; intros; congruence].
Qed.

Lemma contains_spec (n h : string) :
  Str.contains n h = true <-> exists pre post, h = pre ++ n ++ post.
Proof.
  induction h as [|b h IH]; cbn [Str.contains].
  - rewrite orb_false_r, prefix_app. split.
    + intros [post H]. exists "", post. exact H.
    + intros [pre [post H]]. destruct pre; simpl in H; [eauto | discriminate].
  - rewrite orb_true_iff, prefix_app, IH. split.
    + intros [[post H] | [pre [post H]]].
      * exists "", post. exact H.
      * exists (String b pre), post. simpl. now rewrite H.
    + intros [pre [post H]]. destruct pre as [|c pre]; simpl in H.
      * left; eauto.
      * right. injection H; intros; eauto.
Qed.

Lemma append_assoc (a b c : string) : (a ++ b) ++ c = a ++ b ++ c.
Proof. induction a as [|x a IH]; simpl; [reflexivity | now rewrite IH]. Qed.

Lemma contains_trans (a b c : string) :
  Str.contains a b = true -> Str.contains b c = true -> Str.contains a c = true.
Proof.
  rewrite !contains_spec. intros [p1 [q1 H1]] [p2 [q2 H2]]. subst.
  exists (p2 ++ p1), (q1 ++ q2). now rewrite !append_assoc.
Qed.

(** A line without the letter [E] has no marker spelled with one. *)
Lemma no_E_no_marker (m line : string) :
  Str.contains "E" m = true -> Str.contains "E" line = false ->
  Str.contains m line = false.
Proof.
  intros Hm Hl. destruct (Str.contains m line) eqn:H; [|reflexivity].
  rewrite (contains_trans _ _ _ Hm H) in Hl. discriminate.
Qed.

(** ** The output buffer *)

Lemma blocks_app (b : bool) (xs ys : list out_line) :
  blocks b (xs ++ ys) =
  match blocks b xs with
  | Some b' => blocks b' ys
  | None => None
  end.
Proof.
  revert b; induction xs as [|o xs IH]; intros b; simpl; [reflexivity|].
  destruct o as [[] z|l]; destruct b; auto.
Qed.

Lemma blocks_count (b b' : bool) (out : list out_line) :
  blocks b out = Some b' ->
  (opened_blocks out + (if b then 1 else 0) = reset_lines out + (if b' then 1 else 0))%nat.
Proof.
  unfold opened_blocks, reset_lines.
  revert b; induction out as [|o out IH]; intros b; simpl.
  - intros [= ->]. reflexivity.
  - destruct o as [[] z|l]; destruct b; simpl; try discriminate;
      intros H; specialize (IH _ H); simpl in IH; lia.
Qed.

Lemma opened_blocks_app (xs ys : list out_line) :
  opened_blocks (xs ++ ys) = (opened_blocks xs + opened_blocks ys)%nat.
Proof. unfold opened_blocks. now rewrite filter_app, length_app. Qed.

(** ** One iteration, phase by phase *)

Ltac unfold_setters :=
  unfold close_block, open_block, set_current_layer, set_current_z,
    set_perimeter_type, set_perimeter_block_count, set_inside_perimeter_block,
    set_perimeter_found, set_shifted_blocks, set_in_object, append in *;
  cbn [current_layer current_z perimeter_type perimeter_block_count
       inside_perimeter_block perimeter_found modified_lines shifted_blocks
       in_object] in *.

(** The iteration as its four phases. *)
Lemma process_line_phases zs em lines i line st st' :
  process_line zs em lines i line st = Ok st' ->
  exists st2 st3 line',
    track_layer lines i line (track_object line st) = Ok st2 /\
    (if in_object st2 then shift_inner_wall zs em line (detect_wall line st2)
     else Ok (st2, line)) = Ok (st3, line') /\
    st' = append (Text line') st3.
Proof.
  unfold process_line, bind. intros H.
  destruct (track_layer lines i line (track_object line st)) as [st2|e]; [|discriminate].
  destruct (if in_object st2 then _ else _) as [[st3 line']|e] eqn:E; [|discriminate].
  injection H as <-. exists st2, st3, line'. auto.
Qed.

Lemma track_object_wf line st : well_formed st -> well_formed (track_object line st).
Proof.
  intros [Hb Hi Ho Hc]. unfold track_object.
  destruct (is_object_start line); [|destruct (is_object_end line)];
    [| destruct (inside_perimeter_block (set_in_object false st)) eqn:E |];
    unfold_setters; split; unfold_setters; auto.
  - intros H. destruct (Hi H). auto.
  - rewrite blocks_app, Hb, E. reflexivity.
  - discriminate.
  - apply Forall_app. split; [assumption|]. repeat constructor. discriminate.
  - rewrite opened_blocks_app. simpl. rewrite Nat.add_0_r. assumption.
  - congruence.
Qed.

Lemma track_layer_wf lines i line st st' :
  well_formed st -> track_layer lines i line st = Ok st' -> well_formed st'.
Proof.
  intros [Hb Hi Ho Hc]. unfold track_layer, bind.
  destruct (is_layer_change line); [|now intros [= <-]].
  destruct (lookahead lines i) as [[z|]|e]; intros [= <-];
    split; unfold_setters; auto.
Qed.

Lemma detect_wall_wf line st :
  well_formed st -> in_object st = true -> well_formed (detect_wall line st).
Proof.
  intros [Hb Hi Ho Hc] Hobj. unfold detect_wall.
  destruct (is_feature line); [|now split].
  destruct (inside_perimeter_block st) eqn:E;
    destruct (is_inner_wall line); [| destruct (is_outer_wall line) | | destruct (is_outer_wall line)];
    unfold_setters; rewrite ?E; split; unfold_setters; auto;
    try discriminate; try congruence;
    try (rewrite blocks_app, Hb; reflexivity);
    try (apply Forall_app; split; [assumption|]; repeat constructor; discriminate);
    try (rewrite opened_blocks_app; simpl; rewrite Nat.add_0_r; assumption).
Qed.

Lemma shift_inner_wall_wf zs em line st st' line' :
  well_formed st -> in_object st = true ->
  shift_inner_wall zs em line st = Ok (st', line') -> well_formed st'.
Proof.
  intros Hwf Hobj. pose proof Hwf as [Hb Hi Ho Hc]. unfold shift_inner_wall, bind.
  destruct (is_internal (perimeter_type st)) eqn:Ety; simpl; [|now intros [= <- _]].
  destruct (is_move line); simpl; [|now intros [= <- _]].
  destruct (Str.contains "E" line); simpl.
  - destruct (inside_perimeter_block st) eqn:E; simpl; [now intros [= <- _]|].
    destruct (adjust_extrusion em line); [|discriminate]. intros [= <- _].
    split; unfold_setters.
    + rewrite blocks_app, Hb. reflexivity.
    + intros _. destruct (perimeter_type st) as [[]|]; try discriminate. auto.
    + apply Forall_app. split; [assumption|]. repeat constructor. discriminate.
    + rewrite opened_blocks_app, Nat2N.inj_add, Hc. reflexivity.
  - destruct (Str.contains "F" line); simpl; [|now intros [= <- _]].
    destruct (inside_perimeter_block st) eqn:E; simpl; intros [= <- _]; [|assumption].
    split; unfold_setters.
    + rewrite blocks_app, Hb. reflexivity.
    + discriminate.
    + apply Forall_app. split; [assumption|]. repeat constructor. discriminate.
    + rewrite opened_blocks_app. simpl. rewrite Nat.add_0_r. assumption.
Qed.

Lemma append_text_wf line st : well_formed st -> well_formed (append (Text line) st).
Proof.
  intros [Hb Hi Ho Hc]. split; unfold_setters; auto.
  - rewrite blocks_app, Hb. reflexivity.
  - apply Forall_app. split; [assumption|]. repeat constructor. discriminate.
  - rewrite opened_blocks_app. simpl. rewrite Nat.add_0_r. assumption.
Qed.

Lemma detect_wall_in_object line st : in_object (detect_wall line st) = in_object st.
Proof.
  unfold detect_wall.
  destruct (is_feature line), (inside_perimeter_block st) eqn:E, (is_inner_wall line),
    (is_outer_wall line); unfold_setters; rewrite ?E; reflexivity.
Qed.

Lemma process_line_wf zs em lines i line st st' :
  well_formed st -> process_line zs em lines i line st = Ok st' -> well_formed st'.
Proof.
  intros Hwf H. apply process_line_phases in H as (st2 & st3 & line' & H1 & H2 & ->).
  apply append_text_wf.
  pose proof (track_layer_wf _ _ _ _ _ (track_object_wf line _ Hwf) H1) as Hwf2.
  destruct (in_object st2) eqn:Hobj.
  - eapply shift_inner_wall_wf; [apply detect_wall_wf; eassumption | | exact H2].
    now rewrite detect_wall_in_object.
  - now injection H2 as <- _.
Qed.

Lemma loop_wf zs em lines todo : forall i st st',
  well_formed st -> loop zs em lines i todo st = Ok st' -> well_formed st'.
Proof.
  induction todo as [|line rest IH]; intros i st st' Hwf; simpl.
  - now intros [= <-].
  - unfold bind. destruct (process_line zs em lines i line st) as [st1|e] eqn:E; [|discriminate].
    apply IH. eapply process_line_wf; eassumption.
Qed.

Lemma initial_wf : well_formed initial.
Proof. split; simpl; auto. discriminate. Qed.

Lemma run_wf lines lh em st : run lines lh em = Ok st -> well_formed st.
Proof. unfold run. apply loop_wf, initial_wf. Qed.

(** ** What one iteration appends *)

Lemma extends_nil (out : list out_line) : exists ins, out = (out ++ synthetics ins)%list.
Proof. exists []. simpl. now rewrite app_nil_r. Qed.

Lemma extends_one (out : list out_line) p z :
  exists ins, (out ++ [Synthetic p z] = out ++ synthetics ins)%list.
Proof. now exists [(p, z)]. Qed.

Lemma track_object_extends line st :
  exists ins, modified_lines (track_object line st) = (modified_lines st ++ synthetics ins)%list.
Proof.
  unfold track_object.
  destruct (is_object_start line); [apply extends_nil|].
  destruct (is_object_end line); [|apply extends_nil].
  destruct (inside_perimeter_block (set_in_object false st));
    [apply extends_one | apply extends_nil].
Qed.

Lemma track_layer_lines lines i line st st' :
  track_layer lines i line st = Ok st' -> modified_lines st' = modified_lines st.
Proof.
  unfold track_layer, bind.
  destruct (is_layer_change line); [|now intros [= <-]].
  destruct (lookahead lines i) as [[z|]|e]; now intros [= <-].
Qed.

Lemma detect_wall_extends line st :
  exists ins, modified_lines (detect_wall line st) = (modified_lines st ++ synthetics ins)%list.
Proof.
  unfold detect_wall.
  destruct (is_feature line); [|apply extends_nil].
  destruct (inside_perimeter_block st) eqn:E;
    destruct (is_inner_wall line); [| destruct (is_outer_wall line) | | destruct (is_outer_wall line)];
    unfold_setters; rewrite ?E; unfold_setters;
    (apply extends_one || apply extends_nil).
Qed.

Lemma shift_inner_wall_lines zs em line st st' line' :
  shift_inner_wall zs em line st = Ok (st', line') ->
  (line' = line /\ exists ins, modified_lines st' = (modified_lines st ++ synthetics ins)%list) \/
  (is_move line = true /\
   exists z g e_value,
     Re.search_group "E" Re.sign_digit_or_dot line = Some g /\
     Float.of_string g = Ok e_value /\
     line' = Re.sub "E"%char Re.sign_digit_or_dot
               ("E" ++ Float.format_f 5 (Float.mul e_value em)) (Str.strip line)
             ++ " ; Adjusted E for inner wall" ++ LF /\
     modified_lines st' = (modified_lines st ++ [Synthetic ShiftInnerWall z])%list).
Proof.
  unfold shift_inner_wall.
  destruct (is_internal (perimeter_type st)); simpl;
    [|intros [= <- <-]; left; split; [reflexivity | apply extends_nil]].
  destruct (is_move line) eqn:Hm; simpl;
    [|intros [= <- <-]; left; split; [reflexivity | apply extends_nil]].
  destruct (Str.contains "E" line); simpl.
  - destruct (inside_perimeter_block st); simpl;
      [intros [= <- <-]; left; split; [reflexivity | apply extends_nil]|].
    unfold adjust_extrusion, bind.
    destruct (Re.search_group "E" Re.sign_digit_or_dot line) as [g|] eqn:Hg.
    + destruct (Float.of_string g) as [e_value|] eqn:He; [|discriminate].
      cbn [bind]. intros H. injection H as <- <-. right. split; [reflexivity|].
      exists (Float.add (current_z st) zs), g, e_value. auto.
    + intros [= <- <-]. left. split; [reflexivity | apply extends_one].
  - destruct (Str.contains "F" line), (inside_perimeter_block st); simpl;
      intros [= <- <-]; left; (split; [reflexivity|]);
      (apply extends_one || apply extends_nil).
Qed.

Lemma written_append o st : written (append o st) = (written st ++ [render o])%list.
Proof. unfold written. simpl. now rewrite map_app. Qed.

Lemma render_synthetics ins :
  map render (synthetics ins) = map (fun pz => synthetic_text (fst pz) (snd pz)) ins.
Proof. unfold synthetics. rewrite map_map. reflexivity. Qed.

Lemma process_line_chunk zs em lines i line st st' :
  process_line zs em lines i line st = Ok st' ->
  exists chunk, chunk_for em line chunk /\ written st' = (written st ++ chunk)%list.
Proof.
  intros H. apply process_line_phases in H as (st2 & st3 & line' & H1 & H2 & ->).
  rewrite written_append. unfold written. simpl.
  destruct (track_object_extends line st) as [i1 E1].
  apply track_layer_lines in H1. rewrite E1 in H1.
  assert (Hcases :
    (line' = line /\ exists ins, modified_lines st3 = (modified_lines st2 ++ synthetics ins)%list) \/
    (is_move line = true /\
     exists ins z g e_value,
       Re.search_group "E" Re.sign_digit_or_dot line = Some g /\
       Float.of_string g = Ok e_value /\
       line' = Re.sub "E"%char Re.sign_digit_or_dot
                 ("E" ++ Float.format_f 5 (Float.mul e_value em)) (Str.strip line)
               ++ " ; Adjusted E for inner wall" ++ LF /\
       modified_lines st3 =
         (modified_lines st2 ++ synthetics ins ++ [Synthetic ShiftInnerWall z])%list)).
  { destruct (in_object st2).
    - destruct (detect_wall_extends line st2) as [i2 E2].
      apply shift_inner_wall_lines in H2 as [[-> [i3 E3]] | [Hm (z & g & e & Hg & He & -> & E3)]].
      + left. split; [reflexivity|]. rewrite E2 in E3.
        exists (i2 ++ i3)%list. rewrite E3. unfold synthetics. now rewrite map_app, app_assoc.
      + right. split; [assumption|]. exists i2, z, g, e.
        repeat split; auto. rewrite E3, E2. now rewrite app_assoc.
    - injection H2 as <- <-. left. split; [reflexivity | apply extends_nil]. }
  destruct Hcases as [[-> [i2 E2]] | [Hm (i2 & z & g & e & Hg & He & -> & E2)]].
  - exists (map (fun pz => synthetic_text (fst pz) (snd pz)) (i1 ++ i2)%list ++ [line])%list.
    split; [constructor|].
    rewrite E2, H1, <- render_synthetics. unfold synthetics.
    now rewrite !map_app, <- !app_assoc.
  - eexists. split; [eapply (chunk_rewritten em line (i1 ++ i2)%list z g e); eassumption|].
    rewrite E2, H1, <- render_synthetics. unfold synthetics.
    rewrite !map_app, <- !app_assoc. reflexivity.
Qed.

Lemma loop_chunks zs em lines todo : forall i st st',
  loop zs em lines i todo st = Ok st' ->
  exists chunks, Forall2 (chunk_for em) todo chunks /\
                 written st' = (written st ++ List.concat chunks)%list.
Proof.
  induction todo as [|line rest IH]; intros i st st'; simpl.
  - intros [= <-]. exists []. split; [constructor | now rewrite app_nil_r].
  - unfold bind. destruct (process_line zs em lines i line st) as [st1|e] eqn:E; [|discriminate].
    intros H. apply IH in H as (chunks & HF & Hw).
    apply process_line_chunk in E as (chunk & Hc & Hw1).
    exists (chunk :: chunks). split; [now constructor|].
    simpl. now rewrite Hw, Hw1, app_assoc.
Qed.

Lemma loop_app zs em lines pre post : forall i st,
  loop zs em lines i (pre ++ post) st =
  let* st1 := loop zs em lines i pre st in
  loop zs em lines (i + List.length pre) post st1.
Proof.
  induction pre as [|line pre IH]; intros i st; simpl.
  - now rewrite Nat.add_0_r.
  - unfold bind at 1 3. destruct (process_line zs em lines i line st); [|reflexivity].
    rewrite IH. now rewrite Nat.add_succ_r.
Qed.

(** ** Exceptions of the pass *)

Lemma of_string_raises s e : Float.of_string s = Raise e -> e = ValueError.
Proof.
  unfold Float.of_string.
  destruct (match s with String "-"%char r => (true, r) | _ => (false, s) end) as [neg body].
  destruct (match Float.drop _ body with String "."%char r => _ | _ => _ end) as [fp tail].
  destruct tail; [destruct (_ ++ _)|]; congruence.
Qed.

Lemma get_z_height_raises line e :
  get_z_height_from_comment line = Raise e -> e = ValueError.
Proof.
  unfold get_z_height_from_comment, bind.
  destruct (Str.contains "; Z_HEIGHT:" line).
  - destruct (Re.search_group _ _ line) as [g|]; [|discriminate].
    destruct (Float.of_string g) eqn:E; [discriminate|].
    intros [= <-]. eapply of_string_raises; eassumption.
  - destruct (Str.contains ";Z:" line); [|discriminate].
    destruct (Re.search_group _ _ line) as [g|]; [|discriminate].
    destruct (Float.of_string g) eqn:E; [discriminate|].
    intros [= <-]. eapply of_string_raises; eassumption.
Qed.

(** The index of the lookahead is in range whenever it is used. *)
Lemma lookahead_raises lines i e : lookahead lines i = Raise e -> e = ValueError.
Proof.
  unfold lookahead, getitem, bind.
  destruct (i + 1 <? List.length lines)%nat eqn:Hlt; [|discriminate].
  apply Nat.ltb_lt in Hlt.
  destruct (nth_error lines (i + 1)) as [next|] eqn:Hn.
  - apply get_z_height_raises.
  - apply nth_error_None in Hn. lia.
Qed.

Lemma process_line_raises zs em lines i line st e :
  process_line zs em lines i line st = Raise e -> e = ValueError.
Proof.
  unfold process_line, bind.
  destruct (track_layer lines i line (track_object line st)) as [st2|e2] eqn:E2.
  - destruct (in_object st2); [|discriminate].
    destruct (shift_inner_wall zs em line (detect_wall line st2)) as [[st3 l3]|e3] eqn:E3;
      [discriminate|].
    intros [= <-]. revert E3. unfold shift_inner_wall, bind.
    destruct (_ && _); [|discriminate].
    destruct (Str.contains "E" line); [|destruct (_ && _); discriminate].
    destruct (negb _); [|discriminate].
    unfold adjust_extrusion, bind.
    destruct (Re.search_group _ _ line) as [g|]; [|discriminate].
    destruct (Float.of_string g) eqn:E; [discriminate|].
    intros [= <-]. eapply of_string_raises; eassumption.
  - intros [= <-]. revert E2. unfold track_layer, bind.
    destruct (is_layer_change line); [|discriminate].
    destruct (lookahead lines i) as [[z|]|e3] eqn:E3; try discriminate.
    intros [= <-]. eapply lookahead_raises; eassumption.
Qed.

Lemma loop_raises zs em lines todo : forall i st e,
  loop zs em lines i todo st = Raise e -> e = ValueError.
Proof.
  induction todo as [|line rest IH]; intros i st e; simpl; [discriminate|].
  unfold bind. destruct (process_line zs em lines i line st) as [st1|e1] eqn:E.
  - apply IH.
  - intros [= <-]. eapply process_line_raises; eassumption.
Qed.

(** ** When the pass completes *)

Lemma lookahead_completes lines i :
  Forall (fun l => z_comment_ok l = true) lines -> exists z, lookahead lines i = Ok z.
Proof.
  intros Hall. unfold lookahead, getitem, bind.
  destruct (i + 1 <? List.length lines)%nat eqn:Hlt; [|eauto].
  apply Nat.ltb_lt in Hlt.
  destruct (nth_error lines (i + 1)) as [next|] eqn:Hn.
  - apply nth_error_In in Hn. rewrite Forall_forall in Hall.
    specialize (Hall _ Hn). unfold z_comment_ok in Hall.
    destruct (get_z_height_from_comment next); [eauto | discriminate].
  - apply nth_error_None in Hn. lia.
Qed.

Lemma track_layer_completes lines i line st :
  (exists z, lookahead lines i = Ok z) ->
  exists st', track_layer lines i line st = Ok st'.
Proof.
  intros [z Hz]. unfold track_layer. rewrite Hz. cbn [bind].
  destruct (is_layer_change line); [destruct z|]; eauto.
Qed.

Lemma shift_inner_wall_completes zs em line st :
  e_field_ok line = true -> exists r, shift_inner_wall zs em line st = Ok r.
Proof.
  intros He. unfold shift_inner_wall, bind.
  destruct (_ && _); [|eauto].
  destruct (Str.contains "E" line); [|destruct (_ && _); eauto].
  destruct (negb _); [|eauto].
  unfold adjust_extrusion, bind. unfold e_field_ok in He.
  destruct (Re.search_group _ _ line) as [g|]; [|eauto].
  destruct (Float.of_string g); [eauto | discriminate].
Qed.

Lemma process_line_completes zs em lines i line st :
  (exists z, lookahead lines i = Ok z) -> e_field_ok line = true ->
  exists st', process_line zs em lines i line st = Ok st'.
Proof.
  intros Hz He. unfold process_line.
  destruct (track_layer_completes lines i line (track_object line st) Hz) as [st2 ->].
  cbn [bind]. destruct (in_object st2).
  - destruct (shift_inner_wall_completes zs em line (detect_wall line st2) He) as [[st3 l3] ->].
    cbn [bind]. eauto.
  - cbn [bind]. eauto.
Qed.

Lemma loop_completes zs em lines todo : forall i st,
  Forall (fun l => z_comment_ok l = true) lines ->
  Forall (fun l => e_field_ok l = true) todo ->
  exists st', loop zs em lines i todo st = Ok st'.
Proof.
  induction todo as [|line rest IH]; intros i st Hz He; simpl; [eauto|].
  inversion He as [|? ? He1 He2]; subst.
  destruct (process_line_completes zs em lines i line st
              (lookahead_completes lines i Hz) He1) as [st1 ->].
  cbn [bind]. now apply IH.
Qed.

Lemma numbers_ok_split lines :
  Forall (fun l => numbers_ok l = true) lines ->
  Forall (fun l => z_comment_ok l = true) lines /\
  Forall (fun l => e_field_ok l = true) lines.
Proof.
  intros H. split; eapply Forall_impl; try exact H; intros l Hl;
    unfold numbers_ok in Hl; apply andb_true_iff in Hl; tauto.
Qed.

(** The pass completes on a file whose number fields all convert. *)
Lemma run_completes lines lh em :
  Forall (fun l => numbers_ok l = true) lines -> exists st, run lines lh em = Ok st.
Proof.
  intros H. apply numbers_ok_split in H as [Hz He]. now apply loop_completes.
Qed.

(** ** A file without feature markers *)

Lemma track_object_quiet line st :
  inside_perimeter_block st = false ->
  perimeter_type (track_object line st) = perimeter_type st /\
  inside_perimeter_block (track_object line st) = false /\
  modified_lines (track_object line st) = modified_lines st.
Proof.
  intros Hin. unfold track_object.
  destruct (is_object_start line); [auto|].
  destruct (is_object_end line); [|auto].
  unfold_setters. rewrite Hin. auto.
Qed.

Lemma track_layer_keeps lines i line st st' :
  track_layer lines i line st = Ok st' ->
  perimeter_type st' = perimeter_type st /\
  inside_perimeter_block st' = inside_perimeter_block st /\
  in_object st' = in_object st /\
  modified_lines st' = modified_lines st.
Proof.
  unfold track_layer, bind.
  destruct (is_layer_change line); [|intros [= <-]; auto].
  destruct (lookahead lines i) as [[z|]|e]; intros [= <-]; auto.
Qed.

Lemma shift_inner_wall_not_internal zs em line st :
  is_internal (perimeter_type st) = false -> shift_inner_wall zs em line st = Ok (st, line).
Proof. intros H. unfold shift_inner_wall. now rewrite H. Qed.

Lemma process_line_quiet zs em lines i line st st' :
  perimeter_type st = None -> inside_perimeter_block st = false ->
  is_feature line = false ->
  process_line zs em lines i line st = Ok st' ->
  perimeter_type st' = None /\ inside_perimeter_block st' = false /\
  modified_lines st' = (modified_lines st ++ [Text line])%list.
Proof.
  intros Hty Hin Hf H.
  apply process_line_phases in H as (st2 & st3 & line' & H1 & H2 & ->).
  destruct (track_object_quiet line st Hin) as (Ety & Ein & Eml).
  apply track_layer_keeps in H1 as (Ety2 & Ein2 & _ & Eml2).
  assert (st3 = st2 /\ line' = line) as [-> ->].
  { destruct (in_object st2); [|now injection H2].
    unfold detect_wall in H2. rewrite Hf in H2.
    rewrite shift_inner_wall_not_internal in H2; [now injection H2|].
    rewrite Ety2, Ety, Hty. reflexivity. }
  unfold_setters. repeat split; congruence.
Qed.

Lemma loop_quiet zs em lines todo : forall i st st',
  perimeter_type st = None -> inside_perimeter_block st = false ->
  Forall no_feature_marker todo ->
  loop zs em lines i todo st = Ok st' ->
  modified_lines st' = (modified_lines st ++ map Text todo)%list.
Proof.
  induction todo as [|line rest IH]; intros i st st' Hty Hin Hall; simpl.
  - intros [= <-]. now rewrite app_nil_r.
  - inversion Hall as [|? ? Hf Hrest]; subst. unfold bind.
    destruct (process_line zs em lines i line st) as [st1|e] eqn:E; [|discriminate].
    intros H. apply process_line_quiet in E as (Hty1 & Hin1 & Eml); auto.
    rewrite (IH _ _ _ Hty1 Hin1 Hrest H), Eml, <- app_assoc. reflexivity.
Qed.

Lemma no_marker_no_e_rewrite zs em lines todo : forall i st,
  perimeter_type st = None -> inside_perimeter_block st = false ->
  Forall no_feature_marker todo ->
  Forall (fun l => z_comment_ok l = true) lines ->
  exists st', loop zs em lines i todo st = Ok st'.
Proof.
  induction todo as [|line rest IH]; intros i st Hty Hin Hall Hz; simpl; [eauto|].
  inversion Hall as [|? ? Hf Hrest]; subst.
  assert (exists st1, process_line zs em lines i line st = Ok st1) as [st1 E].
  { unfold process_line.
    destruct (track_layer_completes lines i line (track_object line st)
                (lookahead_completes lines i Hz)) as [st2 E2].
    rewrite E2. cbn [bind].
    destruct (track_object_quiet line st Hin) as (Ety & _ & _).
    apply track_layer_keeps in E2 as (Ety2 & _ & _ & _).
    destruct (in_object st2); cbn [bind]; [|eauto].
    unfold detect_wall. rewrite Hf.
    rewrite shift_inner_wall_not_internal; [cbn [bind]; eauto|].
    rewrite Ety2, Ety, Hty. reflexivity. }
  rewrite E. cbn [bind].
  apply process_line_quiet in E as (Hty1 & Hin1 & _); auto.
Qed.

Lemma detect_default lines :
  Forall no_feature_marker lines -> detect_printer_type lines = prusa.
Proof.
  induction 1 as [|line rest Hf _ IH]; simpl; [reflexivity|].
  unfold no_feature_marker, is_feature in Hf. apply orb_false_iff in Hf as [-> ->].
  exact IH.
Qed.

(** ** A move that opens a block, a move that closes one *)

Lemma process_line_opens zs em lines i line st line' :
  is_object_start line = false -> is_object_end line = false ->
  is_layer_change line = false -> is_feature line = false ->
  in_object st = true -> perimeter_type st = Some internal ->
  inside_perimeter_block st = false ->
  is_move line = true -> Str.contains "E" line = true ->
  adjust_extrusion em line = Ok line' ->
  process_line zs em lines i line st = Ok (append (Text line') (open_block zs st)).
Proof.
  intros Hs He Hl Hf Hobj Hty Hin Hm HE Hadj.
  unfold process_line, track_object, track_layer, detect_wall, shift_inner_wall.
  rewrite Hs, He, Hl. cbn [bind]. rewrite Hobj, Hf, Hty, Hm, HE, Hin, Hadj.
  reflexivity.
Qed.

Lemma written_open_block zs st line :
  written (append (Text line) (open_block zs st)) =
  List.app (written st)
    [synthetic_text ShiftInnerWall (Float.add (current_z st) zs); line].
Proof.
  unfold written, open_block. unfold_setters.
  rewrite <- app_assoc, map_app. reflexivity.
Qed.

Lemma written_close_block p st line :
  written (append (Text line) (close_block p st)) =
  List.app (written st) [synthetic_text p (current_z st); line].
Proof.
  unfold written, close_block. unfold_setters.
  rewrite <- app_assoc, map_app. reflexivity.
Qed.

(** ** The floats of the scenarios *)

Example float_literals :
  Float.of_string "0.2" = Ok float_0_2 /\
  Float.of_string "1.0" = Ok float_1_0 /\
  Float.of_string "2.0" = Ok float_2_0 /\
  Float.of_string "0.5" = Ok Float.half /\
  Float.format_f 3 float_1_0 = "1.000" /\
  Float.format_f 3 (Float.add float_1_0 (Float.mul float_0_2 Float.half)) = "1.100".
Proof. vm_compute. repeat split. Qed.

(** * The claims *)

(** ** Dialect detection and files without markers *)

(** C1 (as stated, refuted): a file with neither feature marker on which the
    detector does not answer dialect A. *)
Lemma default_is_not_dialect_A :
  Forall no_feature_marker ["G28" ++ LF] /\
  detect_printer_type ["G28" ++ LF] <> DialectA.
Proof. split; [repeat constructor | discriminate]. Qed.

(** C1 (amended): on a file with neither feature marker the detector answers
    dialect B, [prusa], the default of the code; the pass, whenever it
    completes, writes the input back verbatim; and it completes whenever the
    number after every Z comment converts. *)
Theorem no_marker_default_and_identity lines lh em :
  Forall no_feature_marker lines ->
  detect_printer_type lines = DialectB /\
  (forall out, process_gcode lines lh em = Ok out -> out = lines) /\
  (Forall (fun l => z_comment_ok l = true) lines ->
   process_gcode lines lh em = Ok lines).
Proof.
  intros Hall.
  assert (Hid : forall out, process_gcode lines lh em = Ok out -> out = lines).
  { unfold process_gcode, run, bind. intros out.
    destruct (loop _ em lines 0 lines initial) as [st|e] eqn:E; [|discriminate].
    intros [= <-]. apply loop_quiet in E; auto.
    unfold written. rewrite E. simpl. rewrite map_map. apply map_id. }
  split; [now apply detect_default | split; [exact Hid|]].
  intros Hz.
  destruct (no_marker_no_e_rewrite (Float.mul lh Float.half) em lines lines 0 initial
              eq_refl eq_refl Hall Hz) as [st E].
  assert (Hp : process_gcode lines lh em = Ok (written st)).
  { unfold process_gcode, run. rewrite E. reflexivity. }
  rewrite Hp. f_equal. now apply Hid.
Qed.

Lemma no_marker_default_and_identity_witness :
  detect_printer_type unmarked = DialectB /\
  (forall out, process_gcode unmarked float_0_2 float_2_0 = Ok out -> out = unmarked) /\
  (Forall (fun l => z_comment_ok l = true) unmarked ->
   process_gcode unmarked float_0_2 float_2_0 = Ok unmarked).
Proof.
  apply (no_marker_default_and_identity unmarked float_0_2 float_2_0).
  repeat (constructor; [reflexivity|]). constructor.
Defined.

(** ** The vertical-position comment *)

(** C4 (the code at the failing input): a Z comment whose digits and dots do
    not make a number raises [ValueError], and so does the pass on a file
    where that comment follows a layer-change marker. *)
Theorem malformed_z_comment_raises :
  get_z_height_from_comment ("; Z_HEIGHT: 1.2.3" ++ LF) = Raise ValueError /\
  process_gcode ["; CHANGE_LAYER" ++ LF; "; Z_HEIGHT: 1.2.3" ++ LF]
                float_0_2 float_1_0 = Raise ValueError.
Proof. split; vm_compute; reflexivity. Qed.

(** ** Scenarios *)

(** C6: scenario A.  Inside an object, at height [1.0], on an inner wall and
    with no block open, with layer height [0.2] and multiplier [2.0], the
    line [G1 X1 Y1 E0.5] is written as the shift line to [1.100] followed by
    the line with [E1.00000] and its annotation, [1.00000] being [0.5 * 2.0]
    with five decimals; the whole file [scenario_A] is written as
    [scenario_A_written]. *)
Theorem scenario_A_shift_and_rewrite lines i st :
  in_object st = true -> current_z st = float_1_0 ->
  perimeter_type st = Some internal -> inside_perimeter_block st = false ->
  (exists st',
     process_line (Float.mul float_0_2 Float.half) float_2_0 lines i
                  ("G1 X1 Y1 E0.5" ++ LF) st = Ok st' /\
     written st' =
       List.app (written st)
         ["G1 Z1.100 F1200 ; Z shift for inner wall" ++ LF;
          "G1 X1 Y1 E1.00000 ; Adjusted E for inner wall" ++ LF] /\
     inside_perimeter_block st' = true) /\
  Float.format_f 5 (Float.mul Float.half float_2_0) = "1.00000" /\
  process_gcode scenario_A float_0_2 float_2_0 = Ok scenario_A_written.
Proof.
  intros Hobj Hz Hty Hin. split; [|split; vm_compute; reflexivity].
  eexists. split; [|split].
  - apply process_line_opens; try assumption; try reflexivity.
  - rewrite written_open_block, Hz. reflexivity.
  - reflexivity.
Qed.

Lemma scenario_A_shift_and_rewrite_witness :
  (exists st',
     process_line (Float.mul float_0_2 Float.half) float_2_0 scenario_A 4
                  ("G1 X1 Y1 E0.5" ++ LF) (on_inner_wall false) = Ok st' /\
     written st' =
       List.app (written (on_inner_wall false))
         ["G1 Z1.100 F1200 ; Z shift for inner wall" ++ LF;
          "G1 X1 Y1 E1.00000 ; Adjusted E for inner wall" ++ LF] /\
     inside_perimeter_block st' = true) /\
  Float.format_f 5 (Float.mul Float.half float_2_0) = "1.00000" /\
  process_gcode scenario_A float_0_2 float_2_0 = Ok scenario_A_written.
Proof.
  apply (scenario_A_shift_and_rewrite scenario_A 4 (on_inner_wall false)); reflexivity.
Defined.

(** C9: the pass is not idempotent.  Run on its own output for [scenario_A],
    it writes a second shift line before the move already shifted and
    multiplies its extrusion again, [E1.00000] becoming [E2.00000]. *)
Theorem not_idempotent :
  process_gcode scenario_A float_0_2 float_2_0 = Ok scenario_A_written /\
  process_gcode scenario_A_written float_0_2 float_2_0 = Ok scenario_A_written_twice /\
  scenario_A_written_twice <> scenario_A_written.
Proof.
  split; [vm_compute; reflexivity | split; [vm_compute; reflexivity|]].
  intros H. apply (f_equal (@List.length string)) in H. discriminate.
Qed.

(** ** Closing a block *)

Lemma process_line_closes zs em lines i line st :
  in_object st = true -> perimeter_type st = Some internal ->
  inside_perimeter_block st = true ->
  is_move line = true -> Str.contains "F" line = true ->
  Str.contains "E" line = false -> Str.contains "M625" line = false ->
  process_line zs em lines i line st =
  Ok (append (Text line) (close_block ResetAfterInnerWall (track_object line st))) /\
  modified_lines (track_object line st) = modified_lines st /\
  current_z (track_object line st) = current_z st.
Proof.
  intros Hobj Hty Hin Hm HF HE H625.
  assert (Hend : is_object_end line = false).
  { unfold is_object_end. rewrite H625. now apply no_E_no_marker. }
  assert (Hl : is_layer_change line = false).
  { unfold is_layer_change. rewrite !no_E_no_marker; auto. }
  assert (Hf : is_feature line = false).
  { unfold is_feature. rewrite !no_E_no_marker; auto. }
  unfold process_line, track_layer, detect_wall, shift_inner_wall.
  rewrite Hl, Hf. cbn [bind]. unfold track_object. rewrite Hend.
  destruct (is_object_start line); unfold_setters;
    rewrite ?Hobj, Hty, Hm, HE, HF, Hin; auto.
Qed.

(** C2 (as stated, refuted): scenario A leaves a block open on an inner
    wall, and the line [G1 F2400] after it is written with no reset line
    before it and leaves the block open. *)
Lemma scenario_B_no_reset :
  (exists st,
     run scenario_A float_0_2 float_2_0 = Ok st /\
     inside_perimeter_block st = true /\ perimeter_type st = Some internal) /\
  process_gcode scenario_B float_0_2 float_2_0 = Ok scenario_B_written /\
  (exists st,
     process_line (Float.mul float_0_2 Float.half) float_2_0 scenario_B 5
                  ("G1 F2400" ++ LF) (on_inner_wall true) = Ok st /\
     written st = ["G1 F2400" ++ LF] /\ inside_perimeter_block st = true).
Proof.
  split; [|split].
  - eexists. split; [vm_compute; reflexivity | split; reflexivity].
  - vm_compute. reflexivity.
  - eexists. split; [vm_compute; reflexivity | split; reflexivity].
Qed.

(** A line that is not a move and has no object-end or feature marker is
    appended as it is, with nothing before it, whether a block is open or
    not. *)
Lemma process_line_not_move zs em lines i line st :
  is_move line = false -> is_object_end line = false -> is_feature line = false ->
  z_lookahead_ok lines i line = true ->
  exists st',
    process_line zs em lines i line st = Ok st' /\
    modified_lines st' = List.app (modified_lines st) [Text line] /\
    inside_perimeter_block st' = inside_perimeter_block st.
Proof.
  intros Hm He Hf Hz.
  assert (exists st2, track_layer lines i line (track_object line st) = Ok st2) as [st2 E2].
  { unfold track_layer, bind. unfold z_lookahead_ok in Hz.
    destruct (is_layer_change line); [|eauto]. simpl in Hz.
    destruct (lookahead lines i) as [[z|]|]; [eauto | eauto | discriminate]. }
  pose proof (track_layer_keeps _ _ _ _ _ E2) as (_ & Ein & _ & Eml).
  assert (Hto : inside_perimeter_block (track_object line st) = inside_perimeter_block st /\
                modified_lines (track_object line st) = modified_lines st).
  { unfold track_object. rewrite He. destruct (is_object_start line); auto. }
  destruct Hto as (Hin1 & Hml1).
  exists (append (Text line) st2). split.
  - unfold process_line. rewrite E2. cbn [bind].
    unfold detect_wall, shift_inner_wall. rewrite Hf, Hm, andb_false_r.
    destruct (in_object st2); reflexivity.
  - unfold_setters. rewrite Eml, Hml1, Ein, Hin1. auto.
Qed.

(** C2 (amended): with a block open on an inner wall inside an object, a move
    line (it starts with [G1] and has [X] and [Y]) that has an [F], no [E]
    and no object-end marker [M625], such as [G1 X2 Y2 F2400], is written
    with the line [G1 Z<current_z, three decimals> F1200 ; Reset Z after
    inner wall] immediately before it, and the block is closed; a line that
    is not a move line, such as [G1 F2400], and has neither an object-end
    marker nor a feature marker is written as it is with no reset line, and
    the block stays open, when its Z lookahead does not fail. *)
Theorem travel_move_closes_block zs em lines i st :
  in_object st = true -> perimeter_type st = Some internal ->
  inside_perimeter_block st = true ->
  (forall line,
     is_move line = true -> Str.contains "F" line = true ->
     Str.contains "E" line = false -> Str.contains "M625" line = false ->
     exists st',
       process_line zs em lines i line st = Ok st' /\
       written st' =
         List.app (written st)
           ["G1 Z" ++ Float.format_f 3 (current_z st)
            ++ " F1200 ; Reset Z after inner wall" ++ LF; line] /\
       inside_perimeter_block st' = false) /\
  (forall line,
     is_move line = false -> is_object_end line = false ->
     is_feature line = false -> z_lookahead_ok lines i line = true ->
     exists st',
       process_line zs em lines i line st = Ok st' /\
       written st' = List.app (written st) [line] /\
       inside_perimeter_block st' = true).
Proof.
  intros Hobj Hty Hin. split.
  - intros line Hm HF HE H625.
    destruct (process_line_closes zs em lines i line st Hobj Hty Hin Hm HF HE H625)
      as (Hp & Hml & Hz).
    eexists. split; [exact Hp|]. split; [|reflexivity].
    rewrite written_close_block. unfold written. rewrite Hml, Hz. reflexivity.
  - intros line Hm He Hf Hz.
    destruct (process_line_not_move zs em lines i line st Hm He Hf Hz)
      as (st' & Hp & Hml & Hin').
    exists st'. split; [exact Hp|]. split; [|congruence].
    unfold written. rewrite Hml, map_app. reflexivity.
Qed.

Lemma travel_move_closes_block_witness :
  (exists st',
     process_line (Float.mul float_0_2 Float.half) float_2_0 scenario_B 5
                  ("G1 X2 Y2 F2400" ++ LF) (on_inner_wall true) = Ok st' /\
     written st' =
       List.app (written (on_inner_wall true))
         ["G1 Z" ++ Float.format_f 3 (current_z (on_inner_wall true))
          ++ " F1200 ; Reset Z after inner wall" ++ LF; "G1 X2 Y2 F2400" ++ LF] /\
     inside_perimeter_block st' = false) /\
  (exists st',
     process_line (Float.mul float_0_2 Float.half) float_2_0 scenario_B 5
                  ("G1 F2400" ++ LF) (on_inner_wall true) = Ok st' /\
     written st' = List.app (written (on_inner_wall true)) ["G1 F2400" ++ LF] /\
     inside_perimeter_block st' = true).
Proof.
  destruct (travel_move_closes_block (Float.mul float_0_2 Float.half) float_2_0
              scenario_B 5 (on_inner_wall true) eq_refl eq_refl eq_refl)
    as [Hmove Hother].
  split.
  - apply (Hmove ("G1 X2 Y2 F2400" ++ LF)); reflexivity.
  - apply (Hother ("G1 F2400" ++ LF)); reflexivity.
Defined.

(** ** Object scope and the feature in force *)

Lemma track_object_keeps_type line st :
  perimeter_type (track_object line st) = perimeter_type st.
Proof.
  unfold track_object.
  destruct (is_object_start line); [reflexivity|].
  destruct (is_object_end line); [|reflexivity].
  destruct (inside_perimeter_block (set_in_object false st)); reflexivity.
Qed.

Lemma shift_inner_wall_in_object zs em line st st' line' :
  shift_inner_wall zs em line st = Ok (st', line') -> in_object st' = in_object st.
Proof.
  unfold shift_inner_wall, bind.
  destruct (_ && _); [|now intros [= <- _]].
  destruct (Str.contains "E" line).
  - destruct (negb _); [|now intros [= <- _]].
    destruct (adjust_extrusion em line); [|discriminate]. now intros [= <- _].
  - destruct (_ && _); now intros [= <- _].
Qed.

(** The feature in force changes only on a line processed inside an
    object. *)
Lemma perimeter_type_changes_in_object zs em lines i line st st' :
  process_line zs em lines i line st = Ok st' ->
  in_object st' = false -> perimeter_type st' = perimeter_type st.
Proof.
  intros H Hobj. apply process_line_phases in H as (st2 & st3 & line' & H1 & H2 & ->).
  apply track_layer_keeps in H1 as (Ety & _ & _ & _).
  rewrite track_object_keeps_type in Ety. cbn [append perimeter_type in_object] in *.
  destruct (in_object st2) eqn:E2.
  - apply shift_inner_wall_in_object in H2.
    rewrite detect_wall_in_object in H2. congruence.
  - injection H2 as <- _. exact Ety.
Qed.

(** C3 (as stated, refuted): after an object is closed on an inner wall the
    feature in force is still [internal] although [in_object] is false. *)
Lemma perimeter_type_survives_object_end :
  exists st,
    run closed_object float_0_2 float_2_0 = Ok st /\
    in_object st = false /\ perimeter_type st = Some internal.
Proof. eexists. split; [vm_compute; reflexivity | split; reflexivity]. Qed.

(** C3 (amended): a line with an object-end marker and no object-start
    marker, when its Z lookahead does not fail, sets [in_object] to false,
    leaves [perimeter_type] as it was and leaves no block open, a block that
    was open getting its reset line, at [current_z], before the line; and on
    every line [perimeter_type] changes only if [in_object] is true after
    it. *)
Theorem object_end_keeps_perimeter_type zs em lines i line st :
  is_object_start line = false -> is_object_end line = true ->
  z_lookahead_ok lines i line = true ->
  (exists st',
     process_line zs em lines i line st = Ok st' /\
     perimeter_type st' = perimeter_type st /\
     in_object st' = false /\
     inside_perimeter_block st' = false /\
     written st' =
       List.app (written st)
         (if inside_perimeter_block st
          then ["G1 Z" ++ Float.format_f 3 (current_z st)
                ++ " F1200 ; Reset Z at object end" ++ LF; line]
          else [line])) /\
  (forall l2 s2 s2',
     process_line zs em lines i l2 s2 = Ok s2' ->
     in_object s2' = false -> perimeter_type s2' = perimeter_type s2).
Proof.
  intros Hs He Hz. split; [|intros l2 s2 s2'; apply perimeter_type_changes_in_object].
  assert (exists st2, track_layer lines i line (track_object line st) = Ok st2) as [st2 E2].
  { unfold track_layer, bind. unfold z_lookahead_ok in Hz.
    destruct (is_layer_change line); [|eauto]. simpl in Hz.
    destruct (lookahead lines i) as [[z|]|]; [eauto | eauto | discriminate]. }
  pose proof (track_layer_keeps _ _ _ _ _ E2) as (Ety & Ein & Eobj & Eml).
  assert (Hto : in_object (track_object line st) = false /\
                inside_perimeter_block (track_object line st) = false /\
                modified_lines (track_object line st) =
                  List.app (modified_lines st)
                    (if inside_perimeter_block st
                     then [Synthetic ResetObjectEnd (current_z st)] else [])).
  { unfold track_object. rewrite Hs, He. unfold_setters.
    destruct (inside_perimeter_block st); unfold_setters;
      rewrite ?app_nil_r; auto. }
  destruct Hto as (Hobj & Hin & Hml).
  exists (append (Text line) st2). split.
  - unfold process_line. rewrite E2. cbn [bind]. rewrite Eobj, Hobj. reflexivity.
  - rewrite written_append. unfold written. unfold_setters.
    rewrite Ety, track_object_keeps_type, Eobj, Hobj, Ein, Hin, Eml, Hml.
    repeat split.
    destruct (inside_perimeter_block st); rewrite map_app, <- app_assoc; reflexivity.
Qed.

Lemma object_end_keeps_perimeter_type_witness :
  (exists st',
     process_line (Float.mul float_0_2 Float.half) float_2_0 closed_object 2
                  ("M625" ++ LF) (on_inner_wall true) = Ok st' /\
     perimeter_type st' = perimeter_type (on_inner_wall true) /\
     in_object st' = false /\
     inside_perimeter_block st' = false /\
     written st' =
       List.app (written (on_inner_wall true))
         (if inside_perimeter_block (on_inner_wall true)
          then ["G1 Z" ++ Float.format_f 3 (current_z (on_inner_wall true))
                ++ " F1200 ; Reset Z at object end" ++ LF; "M625" ++ LF]
          else ["M625" ++ LF])) /\
  (forall l2 s2 s2',
     process_line (Float.mul float_0_2 Float.half) float_2_0 closed_object 2 l2 s2
       = Ok s2' ->
     in_object s2' = false -> perimeter_type s2' = perimeter_type s2).
Proof.
  apply (object_end_keeps_perimeter_type (Float.mul float_0_2 Float.half) float_2_0
           closed_object 2 ("M625" ++ LF) (on_inner_wall true));
    reflexivity.
Defined.

(** ** Extrusion moves and travel moves *)






(** ** Blocks and their reset lines *)

(** C7 (as stated, refuted): scenario A ends with its block open; one shift
    line was written and no reset line. *)
Lemma block_left_open_at_end_of_input :
  exists st,
    run scenario_A float_0_2 float_2_0 = Ok st /\
    opened_blocks (modified_lines st) = 1%nat /\
    reset_lines (modified_lines st) = 0%nat /\
    inside_perimeter_block st = true.
Proof. eexists. split; [vm_compute; reflexivity | repeat split]. Qed.

(** An iteration that completes had a Z lookahead that did not fail. *)
Lemma process_line_ok_lookahead zs em lines i line st st' :
  process_line zs em lines i line st = Ok st' -> z_lookahead_ok lines i line = true.
Proof.
  intros H. apply process_line_phases in H as (st2 & _ & _ & H1 & _).
  revert H1. unfold track_layer, z_lookahead_ok, bind.
  destruct (is_layer_change line); [|reflexivity].
  destruct (lookahead lines i); [reflexivity | discriminate].
Qed.

(** When the pass completes, so does each of its iterations. *)
Lemma loop_reaches zs em pre line post st st0 :
  loop zs em (pre ++ line :: post) 0 (pre ++ line :: post) initial = Ok st ->
  loop zs em (pre ++ line :: post) 0 pre initial = Ok st0 ->
  exists st1,
    process_line zs em (pre ++ line :: post) (List.length pre) line st0 = Ok st1.
Proof.
  intros H Hpre. rewrite loop_app, Hpre in H. cbn [bind loop Nat.add] in H.
  destruct (process_line zs em (pre ++ line :: post) (List.length pre) line st0);
    [eauto | discriminate].
Qed.

Lemma travel_move_closed_by zs em lines i line st :
  in_object st = true -> perimeter_type st = Some internal ->
  inside_perimeter_block st = true ->
  is_move line = true -> Str.contains "F" line = true ->
  Str.contains "E" line = false -> Str.contains "M625" line = false ->
  closed_by ResetAfterInnerWall line st (process_line zs em lines i line st).
Proof.
  intros Hobj Hty Hin Hm HF HE H625.
  destruct (process_line_closes zs em lines i line st Hobj Hty Hin Hm HF HE H625)
    as (Hp & Hml & Hz).
  eexists. split; [exact Hp|]. split; [|reflexivity].
  unfold close_block. unfold_setters. rewrite Hml, Hz, <- app_assoc. reflexivity.
Qed.

Lemma feature_marker_closed_by zs em lines i line st :
  in_object st = true -> inside_perimeter_block st = true ->
  is_feature line = true -> is_object_end line = false ->
  is_layer_change line = false -> is_move line = false ->
  closed_by ResetFeatureTransition line st (process_line zs em lines i line st).
Proof.
  intros Hobj Hin Hf He Hl Hm.
  assert (Hto : in_object (track_object line st) = true /\
                inside_perimeter_block (track_object line st) = true /\
                modified_lines (track_object line st) = modified_lines st /\
                current_z (track_object line st) = current_z st).
  { unfold track_object. rewrite He. destruct (is_object_start line); auto. }
  destruct Hto as (Hobj1 & Hin1 & Hml1 & Hz1).
  set (st1 := track_object line st) in *.
  assert (Hdw : modified_lines (detect_wall line st1) =
                List.app (modified_lines st1)
                  [Synthetic ResetFeatureTransition (current_z st1)] /\
                inside_perimeter_block (detect_wall line st1) = false).
  { unfold detect_wall. rewrite Hf, Hin1.
    destruct (is_inner_wall line), (is_outer_wall line); unfold_setters; auto. }
  destruct Hdw as (Eml & Ein).
  exists (append (Text line) (detect_wall line st1)). split; [|split].
  - unfold process_line, track_layer. fold st1. rewrite Hl. cbn [bind].
    rewrite Hobj1. unfold shift_inner_wall. rewrite Hm, andb_false_r. reflexivity.
  - unfold_setters. rewrite Eml, Hml1, Hz1, <- app_assoc. reflexivity.
  - unfold_setters. exact Ein.
Qed.

Lemma object_end_closed_by zs em lines i line st :
  inside_perimeter_block st = true ->
  is_object_end line = true -> is_object_start line = false ->
  z_lookahead_ok lines i line = true ->
  closed_by ResetObjectEnd line st (process_line zs em lines i line st).
Proof.
  intros Hin He Hs Hz.
  assert (exists st2, track_layer lines i line (track_object line st) = Ok st2) as [st2 E2].
  { unfold track_layer, bind. unfold z_lookahead_ok in Hz.
    destruct (is_layer_change line); [|eauto]. simpl in Hz.
    destruct (lookahead lines i) as [[z|]|]; [eauto | eauto | discriminate]. }
  pose proof (track_layer_keeps _ _ _ _ _ E2) as (_ & Ein & Eobj & Eml).
  assert (Hto : in_object (track_object line st) = false /\
                inside_perimeter_block (track_object line st) = false /\
                modified_lines (track_object line st) =
                  List.app (modified_lines st) [Synthetic ResetObjectEnd (current_z st)]).
  { unfold track_object. rewrite Hs, He. unfold_setters. rewrite Hin. auto. }
  destruct Hto as (Hobj1 & Hin1 & Hml1).
  exists (append (Text line) st2). split; [|split].
  - unfold process_line. rewrite E2. cbn [bind]. rewrite Eobj, Hobj1. reflexivity.
  - unfold_setters. rewrite Eml, Hml1, <- app_assoc. reflexivity.
  - unfold_setters. congruence.
Qed.

(** C7 (amended): in what the pass writes, shift lines and reset lines
    alternate, starting with a shift line, so no opened block gets more than
    one reset line; the blocks opened are as many as the reset lines, plus the
    one still open if the input ends inside a block, which gets no reset
    line; no reset line comes from the outer-wall branch; and at any line of
    the file met with a block open, the block is closed with one reset line
    before the line when the line is a travel move (a move with [F], no [E]
    and no [M625]), a feature marker (not itself a move, an object end or a
    layer change) or an object end (with no object-start marker), whichever
    the pass meets first. *)
Theorem at_most_one_reset_per_block lines lh em st :
  run lines lh em = Ok st ->
  blocks false (modified_lines st) = Some (inside_perimeter_block st) /\
  opened_blocks (modified_lines st) =
    (reset_lines (modified_lines st) + (if inside_perimeter_block st then 1 else 0))%nat /\
  Forall (fun o => forall z, o <> Synthetic ResetOuterWall z) (modified_lines st) /\
  (forall pre line post st0,
     lines = (pre ++ line :: post)%list ->
     loop (Float.mul lh Float.half) em lines 0 pre initial = Ok st0 ->
     inside_perimeter_block st0 = true ->
     (is_move line = true -> Str.contains "F" line = true ->
      Str.contains "E" line = false -> Str.contains "M625" line = false ->
      closed_by ResetAfterInnerWall line st0
        (process_line (Float.mul lh Float.half) em lines (List.length pre) line st0)) /\
     (is_feature line = true -> is_object_end line = false ->
      is_layer_change line = false -> is_move line = false ->
      closed_by ResetFeatureTransition line st0
        (process_line (Float.mul lh Float.half) em lines (List.length pre) line st0)) /\
     (is_object_end line = true -> is_object_start line = false ->
      closed_by ResetObjectEnd line st0
        (process_line (Float.mul lh Float.half) em lines (List.length pre) line st0))).
Proof.
  intros H. pose proof (run_wf _ _ _ _ H) as [Hb Hi Ho Hc].
  split; [exact Hb | split; [|split; [exact Ho|]]].
  { apply blocks_count in Hb. simpl in Hb. lia. }
  intros pre line post st0 -> Hpre Hin.
  pose proof (loop_wf _ _ _ _ _ _ _ initial_wf Hpre) as Hwf0.
  destruct (wf_inside st0 Hwf0 Hin) as [Hty Hobj].
  split; [|split].
  - intros Hm HF HE H625. now apply travel_move_closed_by.
  - intros Hf He Hl Hm. now apply feature_marker_closed_by.
  - intros He Hs. apply object_end_closed_by; auto.
    unfold run in H. destruct (loop_reaches _ _ _ _ _ _ _ H Hpre) as [st1 E].
    eapply process_line_ok_lookahead; exact E.
Qed.

Lemma at_most_one_reset_per_block_witness :
  exists st,
    run three_blocks float_0_2 float_2_0 = Ok st /\
    reset_lines (modified_lines st) = 3%nat /\
    blocks false (modified_lines st) = Some (inside_perimeter_block st) /\
    opened_blocks (modified_lines st) =
      (reset_lines (modified_lines st) + (if inside_perimeter_block st then 1 else 0))%nat /\
    Forall (fun o => forall z, o <> Synthetic ResetOuterWall z) (modified_lines st) /\
    (forall pre line post st0,
       three_blocks = (pre ++ line :: post)%list ->
       loop (Float.mul float_0_2 Float.half) float_2_0 three_blocks 0 pre initial = Ok st0 ->
       inside_perimeter_block st0 = true ->
       (is_move line = true -> Str.contains "F" line = true ->
        Str.contains "E" line = false -> Str.contains "M625" line = false ->
        closed_by ResetAfterInnerWall line st0
          (process_line (Float.mul float_0_2 Float.half) float_2_0 three_blocks
                        (List.length pre) line st0)) /\
       (is_feature line = true -> is_object_end line = false ->
        is_layer_change line = false -> is_move line = false ->
        closed_by ResetFeatureTransition line st0
          (process_line (Float.mul float_0_2 Float.half) float_2_0 three_blocks
                        (List.length pre) line st0)) /\
       (is_object_end line = true -> is_object_start line = false ->
        closed_by ResetObjectEnd line st0
          (process_line (Float.mul float_0_2 Float.half) float_2_0 three_blocks
                        (List.length pre) line st0))).
Proof.
  eexists. split; [vm_compute; reflexivity|]. split; [reflexivity|].
  apply (at_most_one_reset_per_block three_blocks float_0_2 float_2_0).
  vm_compute. reflexivity.
Defined.

(** ** The lookahead at the last line *)

Lemma lookahead_last pre last : lookahead (pre ++ [last]) (List.length pre) = Ok None.
Proof.
  unfold lookahead. rewrite length_app. simpl.
  destruct (Nat.ltb_spec (List.length pre + 1) (List.length pre + 1)); [lia | reflexivity].
Qed.

Lemma process_line_keeps_z zs em lines i line st st' :
  process_line zs em lines i line st = Ok st' ->
  lookahead lines i = Ok None ->
  current_z st' = current_z st /\ current_layer st' = current_layer st.
Proof.
  intros H Hla. apply process_line_phases in H as (st2 & st3 & line' & H1 & H2 & ->).
  assert (E2 : st2 = track_object line st).
  { revert H1. unfold track_layer. rewrite Hla. cbn [bind].
    destruct (is_layer_change line); now intros [= <-]. }
  assert (E1 : current_z (track_object line st) = current_z st /\
               current_layer (track_object line st) = current_layer st).
  { unfold track_object.
    destruct (is_object_start line); [auto|].
    destruct (is_object_end line); [|auto].
    destruct (inside_perimeter_block (set_in_object false st)); auto. }
  assert (E3 : current_z st3 = current_z st2 /\ current_layer st3 = current_layer st2).
  { destruct (in_object st2); [|now injection H2 as <- _].
    assert (Ed : current_z (detect_wall line st2) = current_z st2 /\
                 current_layer (detect_wall line st2) = current_layer st2).
    { unfold detect_wall.
      destruct (is_feature line), (inside_perimeter_block st2) eqn:E, (is_inner_wall line),
        (is_outer_wall line); unfold_setters; rewrite ?E; auto. }
    revert H2. generalize (detect_wall line st2) Ed. intros d [<- <-].
    unfold shift_inner_wall, bind.
    destruct (_ && _); [|now intros [= <- _]].
    destruct (Str.contains "E" line).
    - destruct (negb _); [|now intros [= <- _]].
      destruct (adjust_extrusion em line); [|discriminate]. now intros [= <- _].
    - destruct (_ && _); now intros [= <- _]. }
  cbn [append current_z current_layer]. subst st2.
  destruct E1 as [<- <-]. exact E3.
Qed.

(** The lookahead at a last line with a layer-change marker finds no
    following line and gives no height, without an exception; layer tracking
    leaves the state as it is; once the lines before it are processed the pass
    completes, with the [current_z] and [current_layer] it had, unless the
    line is itself a move whose extrusion number does not convert; and the
    pass never fails on an index out of range. *)
Theorem lookahead_at_last_line lh em pre last :
  is_layer_change last = true ->
  lookahead (pre ++ [last]) (List.length pre) = Ok None /\
  (forall st, track_layer (pre ++ [last]) (List.length pre) last st = Ok st) /\
  (forall st,
     loop (Float.mul lh Float.half) em (pre ++ [last]) 0 pre initial = Ok st ->
     e_field_ok last = true ->
     exists st',
       run (pre ++ [last]) lh em = Ok st' /\
       current_z st' = current_z st /\ current_layer st' = current_layer st) /\
  run (pre ++ [last]) lh em <> Raise IndexError.
Proof.
  intros Hl. pose proof (lookahead_last pre last) as Hla.
  split; [exact Hla|]. split; [|split].
  - intros st. unfold track_layer. rewrite Hl, Hla. reflexivity.
  - intros st Hpre He. unfold run. rewrite loop_app, Hpre. cbn [bind loop Nat.add].
    destruct (process_line_completes (Float.mul lh Float.half) em (pre ++ [last])
                (List.length pre) last st (ex_intro _ None Hla) He) as [st' E].
    rewrite E. cbn [bind]. exists st'. split; [reflexivity|].
    eapply process_line_keeps_z; eassumption.
  - intros H. apply loop_raises in H. discriminate.
Qed.

Lemma lookahead_at_last_line_witness :
  lookahead (scenario_A ++ ["; CHANGE_LAYER" ++ LF]) (List.length scenario_A) = Ok None /\
  (forall st,
     track_layer (scenario_A ++ ["; CHANGE_LAYER" ++ LF]) (List.length scenario_A)
                 ("; CHANGE_LAYER" ++ LF) st = Ok st) /\
  (forall st,
     loop (Float.mul float_0_2 Float.half) float_2_0
          (scenario_A ++ ["; CHANGE_LAYER" ++ LF]) 0 scenario_A initial = Ok st ->
     e_field_ok ("; CHANGE_LAYER" ++ LF) = true ->
     exists st',
       run (scenario_A ++ ["; CHANGE_LAYER" ++ LF]) float_0_2 float_2_0 = Ok st' /\
       current_z st' = current_z st /\ current_layer st' = current_layer st) /\
  run (scenario_A ++ ["; CHANGE_LAYER" ++ LF]) float_0_2 float_2_0 <> Raise IndexError.
Proof.
  apply (lookahead_at_last_line float_0_2 float_2_0 scenario_A ("; CHANGE_LAYER" ++ LF)).
  reflexivity.
Defined.

(** C8 (the code at the failing inputs): on two files whose last line has a
    layer-change marker the pass does not complete but raises [ValueError]:
    one where the height after an earlier marker is not a number, one where
    the last line is itself an inner-wall move whose extrusion number is not
    a number. *)
Theorem last_line_marker_run_raises :
  (is_layer_change (last malformed_before_last_marker EmptyString) = true /\
   process_gcode malformed_before_last_marker float_0_2 float_1_0 = Raise ValueError) /\
  (is_layer_change (last malformed_on_last_marker EmptyString) = true /\
   process_gcode malformed_on_last_marker float_0_2 float_1_0 = Raise ValueError).
Proof. repeat split; vm_compute; reflexivity. Qed.

(** ** Every input line is written, in order *)

(** C10 (as stated, refuted): the move of [annotated_file] that opens a
    block is written with more than its extrusion field rewritten: the text
    of its comment that looks like an extrusion field is rewritten too, to
    the same value, and the blanks at its end are dropped. *)
Lemma rewrite_reaches_the_comment :
  process_gcode annotated_file float_0_2 float_2_0
  = Ok ["M624" ++ LF; "; FEATURE: Inner wall" ++ LF;
        "G1 Z0.100 F1200 ; Z shift for inner wall" ++ LF;
        annotated_move_written] /\
  Str.contains "; see E2.5 and TEMPERATURE-1  " annotated_move = true /\
  Str.contains "; see E2.5" annotated_move_written = false /\
  Str.contains "TEMPERATURE-1" annotated_move_written = false /\
  Str.contains ("  " ++ LF) annotated_move_written = false.
Proof. repeat split; vm_compute; reflexivity. Qed.

(** C10 (amended): for every input on which the pass completes, the output
    is the input lines in their order, each preceded by the synthetic lines
    written for it, and each as it was or, on the move that opens a block
    and has an [E] followed by a number, stripped of the white space around
    it, with every [E] followed by digits, dots and minus signs on it, in its
    comment too, replaced by [E] and the first such number times the
    multiplier with five decimals, and with the annotation appended; the
    pass completes whenever the numbers of the file convert. *)
Theorem input_lines_kept_in_order lines lh em :
  (forall out,
     process_gcode lines lh em = Ok out ->
     exists chunks, Forall2 (chunk_for em) lines chunks /\ out = List.concat chunks) /\
  (Forall (fun l => numbers_ok l = true) lines ->
   exists out, process_gcode lines lh em = Ok out).
Proof.
  split.
  - intros out. unfold process_gcode, run, bind.
    destruct (loop _ em lines 0 lines initial) as [st|e] eqn:E; [|discriminate].
    intros [= <-]. apply loop_chunks in E as (chunks & HF & Hw).
    exists chunks. split; [exact HF | exact Hw].
  - intros H. destruct (run_completes lines lh em H) as [st E].
    exists (written st). unfold process_gcode. rewrite E. reflexivity.
Qed.

Lemma input_lines_kept_in_order_witness :
  exists chunks,
    Forall2 (chunk_for float_2_0) scenario_B chunks /\
    scenario_B_written = List.concat chunks.
Proof.
  apply (proj1 (input_lines_kept_in_order scenario_B float_0_2 float_2_0)).
  vm_compute. reflexivity.
Defined.

(** * Further properties of the pass *)

(** ** Dialect detection *)

(** X1: the detector answers [bambu] exactly when the first line of the file
    that has either feature marker has the marker [; FEATURE:]; what follows
    that line is not looked at. *)
Theorem detect_bambu_iff_first_marker lines :
  detect_printer_type lines = bambu <->
  exists pre line rest,
    lines = (pre ++ line :: rest)%list /\
    Forall no_feature_marker pre /\
    Str.contains "; FEATURE:" line = true.
Proof.
  induction lines as [|l ls IH]; simpl.
  - split; [discriminate | intros (pre & line & rest & H & _)].
    destruct pre; discriminate.
  - destruct (Str.contains "; FEATURE:" l) eqn:Ef.
    + split; [intros _ | reflexivity].
      exists [], l, ls. repeat split; [constructor | assumption].
    + destruct (Str.contains ";TYPE:" l) eqn:Et.
      * split; [discriminate|]. intros (pre & line & rest & H & Hpre & Hl).
        destruct pre as [|p pre]; simpl in H; injection H as -> ->.
        -- congruence.
        -- inversion Hpre as [|? ? Hp _]; subst.
           unfold no_feature_marker, is_feature in Hp. rewrite Ef, Et in Hp. discriminate.
      * rewrite IH. split.
        -- intros (pre & line & rest & -> & Hpre & Hl).
           exists (l :: pre), line, rest. repeat split; [|assumption].
           constructor; [|assumption]. unfold no_feature_marker, is_feature.
           now rewrite Ef, Et.
        -- intros (pre & line & rest & H & Hpre & Hl).
           destruct pre as [|p pre]; simpl in H; injection H as -> ->.
           ++ congruence.
           ++ inversion Hpre; subst. eauto 6.
Qed.

(** ** The lookahead *)

(** X2: at a line that has a following line, the lookahead is the reading
    of exactly that following line, whatever comes before and after. *)
Theorem lookahead_reads_next_line pre line next rest :
  lookahead (pre ++ line :: next :: rest) (List.length pre)
  = get_z_height_from_comment next.
Proof.
  unfold lookahead, getitem. rewrite length_app. cbn [List.length].
  destruct (Nat.ltb_spec (List.length pre + 1) (List.length pre + S (S (List.length rest))));
    [|lia].
  rewrite nth_error_app2 by lia.
  replace (List.length pre + 1 - List.length pre)%nat with 1%nat by lia.
  reflexivity.
Qed.

(** ** Fields kept by the phases *)

Lemma track_object_keeps_layer line st :
  current_z (track_object line st) = current_z st /\
  current_layer (track_object line st) = current_layer st /\
  perimeter_found (track_object line st) = perimeter_found st /\
  shifted_blocks (track_object line st) = shifted_blocks st.
Proof.
  unfold track_object.
  destruct (is_object_start line); [auto|].
  destruct (is_object_end line); [|auto].
  destruct (inside_perimeter_block (set_in_object false st)); auto.
Qed.

Lemma detect_wall_keeps_layer line st :
  current_z (detect_wall line st) = current_z st /\
  current_layer (detect_wall line st) = current_layer st /\
  shifted_blocks (detect_wall line st) = shifted_blocks st.
Proof.
  unfold detect_wall.
  destruct (is_feature line), (inside_perimeter_block st) eqn:E, (is_inner_wall line),
    (is_outer_wall line); unfold_setters; rewrite ?E; auto.
Qed.

Lemma shift_inner_wall_keeps_layer zs em line st st' line' :
  shift_inner_wall zs em line st = Ok (st', line') ->
  current_z st' = current_z st /\ current_layer st' = current_layer st /\
  perimeter_found st' = perimeter_found st /\ perimeter_type st' = perimeter_type st.
Proof.
  unfold shift_inner_wall, bind.
  destruct (_ && _); [|now intros [= <- _]].
  destruct (Str.contains "E" line).
  - destruct (negb _); [|now intros [= <- _]].
    destruct (adjust_extrusion em line); [|discriminate]. now intros [= <- _].
  - destruct (_ && _); now intros [= <- _].
Qed.

(** What layer tracking does to the layer count, from its lookahead. *)
Lemma track_layer_count lines i line st st' :
  track_layer lines i line st = Ok st' ->
  exists z,
    lookahead lines i = Ok z /\
    current_layer st' =
      (current_layer st
       + if is_layer_change line && match z with Some _ => true | None => false end
         then 1 else 0)%N \/
    is_layer_change line = false /\ current_layer st' = current_layer st.
Proof.
  unfold track_layer, bind.
  destruct (is_layer_change line).
  - destruct (lookahead lines i) as [[z|]|e]; [| |discriminate]; intros [= <-].
    + exists (Some z). left. split; [reflexivity|]. reflexivity.
    + exists None. left. split; [reflexivity|]. cbn. lia.
  - intros [= <-]. exists None. right. auto.
Qed.

Lemma process_line_current_layer zs em lines i line st st' :
  process_line zs em lines i line st = Ok st' ->
  exists z,
    lookahead lines i = Ok z /\
    current_layer st' =
      (current_layer st
       + if is_layer_change line && match z with Some _ => true | None => false end
         then 1 else 0)%N \/
    is_layer_change line = false /\ current_layer st' = current_layer st.
Proof.
  intros H. apply process_line_phases in H as (st2 & st3 & line' & H1 & H2 & ->).
  assert (E3 : current_layer st3 = current_layer st2).
  { destruct (in_object st2); [|now injection H2 as <- _].
    apply shift_inner_wall_keeps_layer in H2 as (_ & -> & _).
    apply detect_wall_keeps_layer. }
  apply track_layer_count in H1 as [z H1]. exists z.
  destruct (track_object_keeps_layer line st) as (_ & El & _).
  cbn [append current_layer]. rewrite E3.
  destruct H1 as [[Hz Hc] | [Hl Hc]]; [left | right]; rewrite Hc, El; auto.
Qed.

(** ** Layers *)

Lemma loop_layer_changes zs em todo : forall pre st st',
  loop zs em (pre ++ todo) (List.length pre) todo st = Ok st' ->
  current_layer st' = (current_layer st + layer_changes todo)%N.
Proof.
  induction todo as [|line rest IH]; intros pre st st'; cbn [loop layer_changes].
  - intros [= <-]. lia.
  - unfold bind.
    destruct (process_line zs em (pre ++ line :: rest) (List.length pre) line st)
      as [st1|e] eqn:E; [|discriminate].
    intros H.
    assert (Hshift : (pre ++ line :: rest = (pre ++ [line]) ++ rest)%list)
      by now rewrite <- app_assoc.
    assert (Hlen : S (List.length pre) = List.length (pre ++ [line])%list)
      by (rewrite length_app; simpl; lia).
    rewrite Hshift, Hlen in H. apply IH in H. rewrite H.
    apply process_line_current_layer in E as [z [[Hz Hc] | [Hl Hc]]].
    + rewrite Hc. destruct rest as [|next rest'].
      * rewrite lookahead_last in Hz. injection Hz as <-.
        rewrite andb_false_r. lia.
      * replace (lookahead (pre ++ line :: next :: rest') (List.length pre))
          with (get_z_height_from_comment next) in Hz.
        -- unfold reads_height. rewrite Hz. lia.
        -- unfold lookahead, getitem. rewrite length_app. cbn [List.length].
           destruct (Nat.ltb_spec (List.length pre + 1)
                       (List.length pre + S (S (List.length rest')))); [|lia].
           rewrite nth_error_app2 by lia.
           replace (List.length pre + 1 - List.length pre)%nat with 1%nat by lia.
           reflexivity.
    + rewrite Hc, Hl. cbn [andb]. lia.
Qed.

(** X3: when the pass completes, [current_layer] is the number of lines of
    the file that have a layer-change marker and are followed by a line from
    which a height is read. *)
Theorem current_layer_counts_layer_changes lines lh em st :
  run lines lh em = Ok st -> current_layer st = layer_changes lines.
Proof.
  unfold run. intros H.
  apply (loop_layer_changes _ em lines [] initial st) in H. exact H.
Qed.

Lemma current_layer_counts_layer_changes_witness :
  exists st,
    run scenario_A float_0_2 float_2_0 = Ok st /\
    current_layer st = layer_changes scenario_A.
Proof.
  eexists. split; [vm_compute; reflexivity|].
  apply (current_layer_counts_layer_changes scenario_A float_0_2 float_2_0).
  vm_compute. reflexivity.
Defined.

(** ** Lines outside an object *)

Lemma process_line_outside zs em lines i line st st' :
  in_object st = false -> inside_perimeter_block st = false ->
  is_object_start line = false ->
  process_line zs em lines i line st = Ok st' ->
  in_object st' = false /\ inside_perimeter_block st' = false /\
  modified_lines st' = (modified_lines st ++ [Text line])%list.
Proof.
  intros Hobj Hin Hs H.
  apply process_line_phases in H as (st2 & st3 & line' & H1 & H2 & ->).
  apply track_layer_keeps in H1 as (_ & Ein & Eobj & Eml).
  assert (Hto : in_object (track_object line st) = false /\
                inside_perimeter_block (track_object line st) = false /\
                modified_lines (track_object line st) = modified_lines st).
  { unfold track_object. rewrite Hs.
    destruct (is_object_end line); [|auto].
    unfold_setters. rewrite Hin. auto. }
  destruct Hto as (Hobj1 & Hin1 & Hml1).
  rewrite Eobj, Hobj1 in H2. injection H2 as <- <-.
  unfold_setters. repeat split; congruence.
Qed.

Lemma process_line_outside_completes zs em lines i line st :
  in_object st = false -> is_object_start line = false ->
  z_lookahead_ok lines i line = true ->
  exists st', process_line zs em lines i line st = Ok st'.
Proof.
  intros Hobj Hs Hz. unfold process_line.
  assert (exists st2, track_layer lines i line (track_object line st) = Ok st2) as [st2 E2].
  { unfold track_layer, bind. unfold z_lookahead_ok in Hz.
    destruct (is_layer_change line); [|eauto]. simpl in Hz.
    destruct (lookahead lines i) as [[z|]|]; [eauto | eauto | discriminate]. }
  rewrite E2. cbn [bind].
  apply track_layer_keeps in E2 as (_ & _ & Eobj & _).
  assert (Hobj1 : in_object (track_object line st) = false).
  { unfold track_object. rewrite Hs.
    destruct (is_object_end line); [|assumption].
    destruct (inside_perimeter_block (set_in_object false st)); reflexivity. }
  rewrite Eobj, Hobj1. cbn [bind]. eauto.
Qed.

(** X4: once any part of the file is processed, a line met outside an
    object that has no object-start marker, and whose Z lookahead does not
    fail, is written as it is with nothing before it, and the pass is still
    outside an object. *)
Theorem line_outside_object_unchanged lh em pre line post st :
  loop (Float.mul lh Float.half) em (pre ++ line :: post) 0 pre initial = Ok st ->
  in_object st = false -> is_object_start line = false ->
  z_lookahead_ok (pre ++ line :: post) (List.length pre) line = true ->
  exists st',
    process_line (Float.mul lh Float.half) em (pre ++ line :: post)
                 (List.length pre) line st = Ok st' /\
    written st' = List.app (written st) [line] /\
    in_object st' = false.
Proof.
  intros Hpre Hobj Hs Hz.
  assert (Hin : inside_perimeter_block st = false).
  { apply loop_wf in Hpre; [|apply initial_wf].
    destruct (inside_perimeter_block st) eqn:E; [|reflexivity].
    destruct (wf_inside st Hpre E) as [_ Ho]. congruence. }
  destruct (process_line_outside_completes (Float.mul lh Float.half) em
              (pre ++ line :: post) (List.length pre) line st Hobj Hs Hz) as [st' E].
  exists st'. split; [exact E|].
  apply process_line_outside in E as (Hobj' & _ & Eml); auto.
  split; [|exact Hobj']. unfold written. rewrite Eml, map_app. reflexivity.
Qed.

Lemma line_outside_object_unchanged_witness :
  exists st',
    process_line (Float.mul float_0_2 Float.half) float_2_0
                 (["; FEATURE: Inner wall" ++ LF] ++ ("G1 X1 Y1 E0.5" ++ LF) :: [])
                 (List.length ["; FEATURE: Inner wall" ++ LF]) ("G1 X1 Y1 E0.5" ++ LF)
                 (append (Text ("; FEATURE: Inner wall" ++ LF)) initial) = Ok st' /\
    written st' =
      List.app (written (append (Text ("; FEATURE: Inner wall" ++ LF)) initial))
               ["G1 X1 Y1 E0.5" ++ LF] /\
    in_object st' = false.
Proof.
  apply (line_outside_object_unchanged float_0_2 float_2_0
           ["; FEATURE: Inner wall" ++ LF] ("G1 X1 Y1 E0.5" ++ LF) []
           (append (Text ("; FEATURE: Inner wall" ++ LF)) initial));
    reflexivity.
Defined.

Lemma loop_outside zs em lines todo : forall i st st',
  in_object st = false -> inside_perimeter_block st = false ->
  Forall (fun l => is_object_start l = false) todo ->
  loop zs em lines i todo st = Ok st' ->
  modified_lines st' = (modified_lines st ++ map Text todo)%list.
Proof.
  induction todo as [|line rest IH]; intros i st st' Hobj Hin Hall; simpl.
  - intros [= <-]. now rewrite app_nil_r.
  - inversion Hall as [|? ? Hs Hrest]; subst. unfold bind.
    destruct (process_line zs em lines i line st) as [st1|e] eqn:E; [|discriminate].
    intros H. apply process_line_outside in E as (Hobj1 & Hin1 & Eml); auto.
    rewrite (IH _ _ _ Hobj1 Hin1 Hrest H), Eml, <- app_assoc. reflexivity.
Qed.

(** X5: a file with no object-start marker, [M624] or
    [EXCLUDE_OBJECT_START], is written back as it is whenever the pass
    completes, whatever feature markers and moves it has. *)
Theorem no_object_start_identity lines lh em st :
  Forall (fun l => is_object_start l = false) lines ->
  run lines lh em = Ok st -> written st = lines.
Proof.
  intros Hall H. unfold run in H. apply loop_outside in H; auto.
  unfold written. rewrite H. simpl. rewrite map_map. apply map_id.
Qed.

Lemma no_object_start_identity_witness :
  exists st,
    run no_object float_0_2 float_2_0 = Ok st /\ written st = no_object.
Proof.
  eexists. split; [vm_compute; reflexivity|].
  apply (no_object_start_identity no_object float_0_2 float_2_0).
  - repeat (constructor; [reflexivity|]). constructor.
  - vm_compute. reflexivity.
Defined.

(** ** No inner wall found *)

Lemma track_layer_keeps_found lines i line st st' :
  track_layer lines i line st = Ok st' ->
  perimeter_found st' = perimeter_found st /\ shifted_blocks st' = shifted_blocks st.
Proof.
  unfold track_layer, bind.
  destruct (is_layer_change line); [|intros [= <-]; auto].
  destruct (lookahead lines i) as [[z|]|e]; intros [= <-]; auto.
Qed.

Lemma detect_wall_found line st :
  perimeter_found st = true -> perimeter_found (detect_wall line st) = true.
Proof.
  intros H. unfold detect_wall.
  destruct (is_feature line), (inside_perimeter_block st) eqn:E, (is_inner_wall line),
    (is_outer_wall line); unfold_setters; rewrite ?E; auto.
Qed.

Lemma process_line_found zs em lines i line st st' :
  process_line zs em lines i line st = Ok st' ->
  perimeter_found st = true -> perimeter_found st' = true.
Proof.
  intros H Hpf. apply process_line_phases in H as (st2 & st3 & line' & H1 & H2 & ->).
  apply track_layer_keeps_found in H1 as [E2 _].
  destruct (track_object_keeps_layer line st) as (_ & _ & E1 & _).
  cbn [append perimeter_found].
  destruct (in_object st2).
  - apply shift_inner_wall_keeps_layer in H2 as (_ & _ & -> & _).
    apply detect_wall_found. congruence.
  - injection H2 as <- _. congruence.
Qed.

Lemma loop_found zs em lines todo : forall i st st',
  loop zs em lines i todo st = Ok st' ->
  perimeter_found st = true -> perimeter_found st' = true.
Proof.
  induction todo as [|line rest IH]; intros i st st'; simpl.
  - now intros [= <-].
  - unfold bind. destruct (process_line zs em lines i line st) as [st1|e] eqn:E; [|discriminate].
    intros H Hpf. eapply IH; [exact H|]. eapply process_line_found; eassumption.
Qed.

(** A line after which no inner wall has been found yet is appended as it
    is, with nothing before it. *)
Lemma process_line_not_found zs em lines i line st st' :
  is_internal (perimeter_type st) = false -> inside_perimeter_block st = false ->
  process_line zs em lines i line st = Ok st' ->
  perimeter_found st' = false ->
  is_internal (perimeter_type st') = false /\ inside_perimeter_block st' = false /\
  modified_lines st' = (modified_lines st ++ [Text line])%list.
Proof.
  intros Hty Hin H Hpf.
  apply process_line_phases in H as (st2 & st3 & line' & H1 & H2 & ->).
  destruct (track_object_quiet line st Hin) as (Ety & Ein & Eml).
  apply track_layer_keeps in H1 as (Ety2 & Ein2 & _ & Eml2).
  cbn [append perimeter_found] in Hpf.
  assert (st3 = st2 /\ line' = line \/
          is_feature line = true /\ is_inner_wall line = false /\ line' = line /\
          st3 = detect_wall line st2) as Hc.
  { destruct (in_object st2); [|left; now injection H2].
    pose proof (shift_inner_wall_keeps_layer _ _ _ _ _ _ H2) as (_ & _ & Epf & _).
    revert H2 Epf. unfold detect_wall.
    destruct (is_feature line).
    - rewrite Ein2, Ein. destruct (is_inner_wall line).
      + intros _ Epf. unfold_setters. congruence.
      + assert (Hni : forall s, is_internal
                        (perimeter_type
                           (if is_outer_wall line
                            then
                              let st := set_perimeter_type (Some external) s in
                              if inside_perimeter_block st
                              then set_inside_perimeter_block false
                                     (append (Synthetic ResetOuterWall (current_z st)) st)
                              else st
                            else set_perimeter_type None s)) = false).
        { intros s. destruct (is_outer_wall line); unfold_setters;
            [destruct (inside_perimeter_block s)|]; reflexivity. }
        rewrite shift_inner_wall_not_internal by apply Hni.
        intros [= <- <-] _. right. auto.
    - rewrite shift_inner_wall_not_internal by congruence.
      intros [= <- <-] _. left. auto. }
  destruct Hc as [[-> ->] | (Hf & Hni & -> & ->)].
  - unfold_setters. repeat split; congruence.
  - unfold detect_wall. rewrite Hf, Ein2, Ein, Hni.
    destruct (is_outer_wall line); unfold_setters; rewrite ?Ein2, ?Ein;
      unfold_setters; repeat split; congruence.
Qed.

Lemma loop_not_found zs em lines todo : forall i st st',
  is_internal (perimeter_type st) = false -> inside_perimeter_block st = false ->
  loop zs em lines i todo st = Ok st' ->
  perimeter_found st' = false ->
  modified_lines st' = (modified_lines st ++ map Text todo)%list.
Proof.
  induction todo as [|line rest IH]; intros i st st' Hty Hin; simpl.
  - intros [= <-] _. now rewrite app_nil_r.
  - unfold bind. destruct (process_line zs em lines i line st) as [st1|e] eqn:E; [|discriminate].
    intros H Hpf.
    assert (Hpf1 : perimeter_found st1 = false).
    { destruct (perimeter_found st1) eqn:E1; [|reflexivity].
      rewrite (loop_found _ _ _ _ _ _ _ H E1) in Hpf. discriminate. }
    apply process_line_not_found in E as (Hty1 & Hin1 & Eml); auto.
    rewrite (IH _ _ _ Hty1 Hin1 H Hpf), Eml, <- app_assoc. reflexivity.
Qed.

(** X6: when the pass ends by logging the warning that no internal
    perimeter was found, the file is written back as it was read. *)
Theorem warning_means_unchanged lines lh em st :
  run lines lh em = Ok st ->
  fst (final_log st) = WARNING ->
  final_log st = (WARNING, "No internal perimeters found in the file.") /\
  written st = lines.
Proof.
  intros H Hw. unfold final_log in *.
  destruct (perimeter_found st) eqn:Hpf; [discriminate|].
  split; [reflexivity|].
  unfold run in H. apply loop_not_found in H; auto.
  unfold written. rewrite H. simpl. rewrite map_map. apply map_id.
Qed.

Lemma warning_means_unchanged_witness :
  exists st,
    run unmarked float_0_2 float_2_0 = Ok st /\
    final_log st = (WARNING, "No internal perimeters found in the file.") /\
    written st = unmarked.
Proof.
  eexists. split; [vm_compute; reflexivity|].
  apply (warning_means_unchanged unmarked float_0_2 float_2_0);
    vm_compute; reflexivity.
Defined.

(** X7: when the pass ends by logging its summary, the number of modified
    blocks in it is the number of shift lines written and the number of
    layers is the number of layer-change lines followed by a height. *)
Theorem summary_counts_shift_lines lines lh em st :
  run lines lh em = Ok st ->
  perimeter_found st = true ->
  final_log st =
    (INFO,
     "Processing complete: Modified "
     ++ Float.decimal (Z.of_nat (opened_blocks (modified_lines st)))
     ++ " blocks across " ++ Float.decimal (Z.of_N (layer_changes lines)) ++ " layers").
Proof.
  intros H Hpf. unfold final_log. rewrite Hpf. cbn [negb].
  pose proof (run_wf _ _ _ _ H) as Hwf. rewrite <- (wf_count st Hwf).
  unfold run in H. apply (loop_layer_changes _ em lines [] initial st) in H.
  rewrite H. cbn [initial current_layer]. rewrite N.add_0_l, nat_N_Z. reflexivity.
Qed.

Lemma summary_counts_shift_lines_witness :
  exists st,
    run scenario_A float_0_2 float_2_0 = Ok st /\
    final_log st =
      (INFO,
       "Processing complete: Modified "
       ++ Float.decimal (Z.of_nat (opened_blocks (modified_lines st)))
       ++ " blocks across " ++ Float.decimal (Z.of_N (layer_changes scenario_A))
       ++ " layers").
Proof.
  eexists. split; [vm_compute; reflexivity|].
  apply (summary_counts_shift_lines scenario_A float_0_2 float_2_0);
    vm_compute; reflexivity.
Defined.

(** ** The invariant on open blocks *)

(** X8: once any part of the file is processed, a block is open only while
    the feature in force is the inner wall and the pass is inside an
    object. *)
Theorem block_open_only_on_inner_wall_in_object lh em lines pre st :
  loop (Float.mul lh Float.half) em lines 0 pre initial = Ok st ->
  inside_perimeter_block st = true ->
  perimeter_type st = Some internal /\ in_object st = true.
Proof.
  intros H Hin. apply loop_wf in H; [|apply initial_wf]. now apply (wf_inside st H).
Qed.

Lemma block_open_only_on_inner_wall_in_object_witness :
  exists st,
    loop (Float.mul float_0_2 Float.half) float_2_0 scenario_B 0 scenario_A initial
      = Ok st /\
    perimeter_type st = Some internal /\ in_object st = true.
Proof.
  eexists. split; [vm_compute; reflexivity|].
  apply (block_open_only_on_inner_wall_in_object float_0_2 float_2_0 scenario_B scenario_A);
    vm_compute; reflexivity.
Defined.

(** ** The size of the output *)

Lemma out_line_kinds (out : list out_line) :
  List.length out =
  (List.length (filter is_text out) + opened_blocks out + reset_lines out)%nat.
Proof.
  unfold opened_blocks, reset_lines.
  induction out as [|o out IH]; simpl; [reflexivity|].
  destruct o as [[] z|l]; simpl; lia.
Qed.

Lemma texts_synthetics ins : filter is_text (synthetics ins) = [].
Proof. induction ins as [|[p z] ins IH]; simpl; auto. Qed.

Lemma process_line_one_text zs em lines i line st st' :
  process_line zs em lines i line st = Ok st' ->
  List.length (filter is_text (modified_lines st'))
  = S (List.length (filter is_text (modified_lines st))).
Proof.
  intros H. apply process_line_phases in H as (st2 & st3 & line' & H1 & H2 & ->).
  destruct (track_object_extends line st) as [i1 E1].
  apply track_layer_lines in H1. rewrite E1 in H1.
  assert (exists i2, modified_lines st3 = (modified_lines st2 ++ synthetics i2)%list)
    as [i2 E2].
  { destruct (in_object st2); [|injection H2 as <- _; apply extends_nil].
    destruct (detect_wall_extends line st2) as [i2 E2].
    apply shift_inner_wall_lines in H2 as [[_ [i3 E3]] | [_ (z & g & e & _ & _ & _ & E3)]].
    - exists (i2 ++ i3)%list. rewrite E3, E2. unfold synthetics.
      now rewrite map_app, app_assoc.
    - exists (i2 ++ [(ShiftInnerWall, z)])%list. rewrite E3, E2. unfold synthetics.
      now rewrite map_app, app_assoc. }
  cbn [append modified_lines]. rewrite E2, H1.
  rewrite !filter_app, !texts_synthetics, !app_nil_r, length_app. simpl. lia.
Qed.

Lemma loop_texts zs em lines todo : forall i st st',
  loop zs em lines i todo st = Ok st' ->
  List.length (filter is_text (modified_lines st'))
  = (List.length (filter is_text (modified_lines st)) + List.length todo)%nat.
Proof.
  induction todo as [|line rest IH]; intros i st st'; simpl.
  - intros [= <-]. lia.
  - unfold bind. destruct (process_line zs em lines i line st) as [st1|e] eqn:E; [|discriminate].
    intros H. apply IH in H. apply process_line_one_text in E. lia.
Qed.

(** X9: the file written has one line for each line read, one for each
    block opened and one for each reset. *)
Theorem written_length lines lh em st :
  run lines lh em = Ok st ->
  List.length (written st) =
  (List.length lines + opened_blocks (modified_lines st)
   + reset_lines (modified_lines st))%nat.
Proof.
  intros H. unfold written. rewrite length_map, out_line_kinds.
  unfold run in H. apply loop_texts in H. rewrite H. reflexivity.
Qed.

Lemma written_length_witness :
  exists st,
    run scenario_B float_0_2 float_2_0 = Ok st /\
    List.length (written st) =
    (List.length scenario_B + opened_blocks (modified_lines st)
     + reset_lines (modified_lines st))%nat.
Proof.
  eexists. split; [vm_compute; reflexivity|].
  apply (written_length scenario_B float_0_2 float_2_0).
  vm_compute. reflexivity.
Defined.

(** ** Exceptions *)

(** X10: on no input does the pass fail on an index out of range: when it
    does not complete, the exception is the [ValueError] of a number that
    does not convert. *)
Theorem only_value_error lines lh em e :
  process_gcode lines lh em = Raise e -> e = ValueError.
Proof.
  unfold process_gcode, run, bind.
  destruct (loop _ em lines 0 lines initial) as [st|e'] eqn:E; [discriminate|].
  intros [= <-]. eapply loop_raises; eassumption.
Qed.

Lemma only_value_error_witness :
  exists e,
    process_gcode malformed_height float_0_2 float_2_0 = Raise e /\ e = ValueError.
Proof.
  eexists. split; [vm_compute; reflexivity|].
  apply (only_value_error malformed_height float_0_2 float_2_0).
  vm_compute. reflexivity.
Defined.

(** ** Feature markers and moves, line by line *)

(** X11: inside an object, a line with a feature marker that is neither a
    move nor an object end nor a layer change closes the block that is open,
    writing the reset line for a feature transition, at [current_z], before
    it; the feature it names, inner wall, outer wall or none, is then the
    feature in force. *)
Theorem feature_marker_closes_block zs em lines i line st :
  in_object st = true -> is_object_end line = false ->
  is_layer_change line = false -> is_feature line = true -> is_move line = false ->
  exists st',
    process_line zs em lines i line st = Ok st' /\
    written st' =
      List.app (written st)
        (if inside_perimeter_block st
         then ["G1 Z" ++ Float.format_f 3 (current_z st)
               ++ " F1200 ; Reset Z for feature transition" ++ LF; line]
         else [line]) /\
    inside_perimeter_block st' = false /\
    perimeter_type st' = feature_of line /\
    perimeter_found st' = perimeter_found st || is_inner_wall line.
Proof.
  intros Hobj He Hl Hf Hm.
  assert (Hto : in_object (track_object line st) = true /\
                inside_perimeter_block (track_object line st) = inside_perimeter_block st /\
                modified_lines (track_object line st) = modified_lines st /\
                current_z (track_object line st) = current_z st /\
                perimeter_found (track_object line st) = perimeter_found st).
  { unfold track_object. rewrite He. destruct (is_object_start line); auto. }
  destruct Hto as (Hobj1 & Hin1 & Hml1 & Hz1 & Hpf1).
  set (st1 := track_object line st) in *.
  assert (Hdw : modified_lines (detect_wall line st1) =
                List.app (modified_lines st1)
                  (if inside_perimeter_block st1
                   then [Synthetic ResetFeatureTransition (current_z st1)] else []) /\
                inside_perimeter_block (detect_wall line st1) = false /\
                perimeter_type (detect_wall line st1) = feature_of line /\
                perimeter_found (detect_wall line st1)
                = perimeter_found st1 || is_inner_wall line).
  { unfold detect_wall, feature_of. rewrite Hf.
    destruct (inside_perimeter_block st1) eqn:Hin, (is_inner_wall line), (is_outer_wall line);
      unfold_setters; rewrite ?Hin; unfold_setters;
      rewrite ?app_nil_r, ?orb_true_r, ?orb_false_r; auto. }
  destruct Hdw as (Eml & Ein & Ety & Epf).
  exists (append (Text line) (detect_wall line st1)). split.
  - unfold process_line, track_layer. fold st1. rewrite Hl. cbn [bind].
    rewrite Hobj1. unfold shift_inner_wall. rewrite Hm, andb_false_r. reflexivity.
  - rewrite written_append. unfold written. unfold_setters.
    rewrite Eml, Ein, Ety, Epf, Hml1, Hin1, Hz1, Hpf1. repeat split.
    destruct (inside_perimeter_block st); rewrite map_app, <- app_assoc; reflexivity.
Qed.

Lemma feature_marker_closes_block_witness :
  exists st',
    process_line (Float.mul float_0_2 Float.half) float_2_0 scenario_A 5
                 (";TYPE:Outer wall" ++ LF) (on_inner_wall true) = Ok st' /\
    written st' =
      List.app (written (on_inner_wall true))
        (if inside_perimeter_block (on_inner_wall true)
         then ["G1 Z" ++ Float.format_f 3 (current_z (on_inner_wall true))
               ++ " F1200 ; Reset Z for feature transition" ++ LF;
               ";TYPE:Outer wall" ++ LF]
         else [";TYPE:Outer wall" ++ LF]) /\
    inside_perimeter_block st' = false /\
    perimeter_type st' = feature_of (";TYPE:Outer wall" ++ LF) /\
    perimeter_found st' =
      perimeter_found (on_inner_wall true) || is_inner_wall (";TYPE:Outer wall" ++ LF).
Proof.
  apply (feature_marker_closes_block (Float.mul float_0_2 Float.half) float_2_0
           scenario_A 5 (";TYPE:Outer wall" ++ LF) (on_inner_wall true));
    reflexivity.
Defined.

(** X12: inside an object, on an inner wall and with a block open, a move
    line with the letter [E] that has no object-end or feature marker, and
    whose Z lookahead does not fail, is written as it is: only the move that
    opens a block has its extrusion rewritten. *)
Theorem extrusion_in_open_block_unchanged zs em lines i line st :
  in_object st = true -> perimeter_type st = Some internal ->
  inside_perimeter_block st = true ->
  is_object_end line = false -> is_feature line = false ->
  z_lookahead_ok lines i line = true ->
  is_move line = true -> Str.contains "E" line = true ->
  exists st',
    process_line zs em lines i line st = Ok st' /\
    written st' = List.app (written st) [line] /\
    inside_perimeter_block st' = true /\
    shifted_blocks st' = shifted_blocks st.
Proof.
  intros Hobj Hty Hin He Hf Hz Hm HE.
  assert (exists st2, track_layer lines i line (track_object line st) = Ok st2) as [st2 E2].
  { unfold track_layer, bind. unfold z_lookahead_ok in Hz.
    destruct (is_layer_change line); [|eauto]. simpl in Hz.
    destruct (lookahead lines i) as [[z|]|]; [eauto | eauto | discriminate]. }
  pose proof (track_layer_keeps _ _ _ _ _ E2) as (Ety & Ein & Eobj & Eml).
  pose proof (track_layer_keeps_found _ _ _ _ _ E2) as (_ & Esb).
  assert (Hto : in_object (track_object line st) = true /\
                inside_perimeter_block (track_object line st) = true /\
                modified_lines (track_object line st) = modified_lines st).
  { unfold track_object. rewrite He. destruct (is_object_start line); auto. }
  destruct Hto as (Hobj1 & Hin1 & Hml1).
  destruct (track_object_keeps_layer line st) as (_ & _ & _ & Esb1).
  rewrite track_object_keeps_type in Ety.
  exists (append (Text line) st2). split.
  - unfold process_line. rewrite E2. cbn [bind]. rewrite Eobj, Hobj1.
    unfold detect_wall, shift_inner_wall. rewrite Hf, Ety, Hty, Hm, HE, Ein, Hin1.
    reflexivity.
  - rewrite written_append. unfold written. unfold_setters.
    rewrite Eml, Hml1, Ein, Hin1, Esb, Esb1. auto.
Qed.

Lemma extrusion_in_open_block_unchanged_witness :
  exists st',
    process_line (Float.mul float_0_2 Float.half) float_2_0 scenario_A 5
                 ("G1 X2 Y2 E0.7" ++ LF) (on_inner_wall true) = Ok st' /\
    written st' = List.app (written (on_inner_wall true)) ["G1 X2 Y2 E0.7" ++ LF] /\
    inside_perimeter_block st' = true /\
    shifted_blocks st' = shifted_blocks (on_inner_wall true).
Proof.
  apply (extrusion_in_open_block_unchanged (Float.mul float_0_2 Float.half) float_2_0
           scenario_A 5 ("G1 X2 Y2 E0.7" ++ LF) (on_inner_wall true));
    reflexivity.
Defined.

(** X13: inside an object, on an inner wall and with no block open, a move
    line with the letter [E] and no marker opens a block: the shift line, at
    [current_z + z_shift] with three decimals, is written before the line as
    [adjust_extrusion] leaves it, and the count of shifted blocks goes up by
    one; a line with no [E] followed by a number is left as it is. *)
Theorem extrusion_move_opens_block zs em lines i line st line' :
  is_object_start line = false -> is_object_end line = false ->
  is_layer_change line = false -> is_feature line = false ->
  in_object st = true -> perimeter_type st = Some internal ->
  inside_perimeter_block st = false ->
  is_move line = true -> Str.contains "E" line = true ->
  adjust_extrusion em line = Ok line' ->
  (exists st',
     process_line zs em lines i line st = Ok st' /\
     written st' =
       List.app (written st)
         ["G1 Z" ++ Float.format_f 3 (Float.add (current_z st) zs)
          ++ " F1200 ; Z shift for inner wall" ++ LF; line'] /\
     inside_perimeter_block st' = true /\
     shifted_blocks st' = (shifted_blocks st + 1)%N) /\
  (has_e_field line = false -> line' = line).
Proof.
  intros Hs He Hl Hf Hobj Hty Hin Hm HE Hadj. split.
  - eexists. split; [apply process_line_opens; eassumption|].
    rewrite written_open_block. repeat split.
  - unfold has_e_field. unfold adjust_extrusion in Hadj.
    destruct (Re.search_group "E" Re.sign_digit_or_dot line); [discriminate|].
    intros _. now injection Hadj.
Qed.

Lemma extrusion_move_opens_block_witness :
  (exists st',
     process_line (Float.mul float_0_2 Float.half) float_2_0 scenario_A 4
                  ("G1 X1 Y1 E0.5" ++ LF) (on_inner_wall false) = Ok st' /\
     written st' =
       List.app (written (on_inner_wall false))
         ["G1 Z" ++ Float.format_f 3
                      (Float.add (current_z (on_inner_wall false))
                                 (Float.mul float_0_2 Float.half))
          ++ " F1200 ; Z shift for inner wall" ++ LF;
          "G1 X1 Y1 E1.00000 ; Adjusted E for inner wall" ++ LF] /\
     inside_perimeter_block st' = true /\
     shifted_blocks st' = (shifted_blocks (on_inner_wall false) + 1)%N) /\
  (has_e_field ("G1 X1 Y1 E0.5" ++ LF) = false ->
   "G1 X1 Y1 E1.00000 ; Adjusted E for inner wall" ++ LF = "G1 X1 Y1 E0.5" ++ LF).
Proof.
  apply (extrusion_move_opens_block (Float.mul float_0_2 Float.half) float_2_0
           scenario_A 4 ("G1 X1 Y1 E0.5" ++ LF) (on_inner_wall false)
           ("G1 X1 Y1 E1.00000 ; Adjusted E for inner wall" ++ LF));
    reflexivity.
Defined.

(** ** Height comments as slicers write them *)

Lemma all_chars_app cls a b :
  all_chars cls (a ++ b) = all_chars cls a && all_chars cls b.
Proof. induction a as [|c a IH]; simpl; [reflexivity | now rewrite IH, andb_assoc]. Qed.

Lemma all_chars_impl (p q : ascii -> bool) s :
  (forall c, p c = true -> q c = true) -> all_chars p s = true -> all_chars q s = true.
Proof.
  intros Hpq. induction s as [|c s IH]; simpl; [reflexivity|].
  intros H. apply andb_true_iff in H as [Hc Hs]. now rewrite (Hpq _ Hc), IH.
Qed.

Lemma take_while_all cls g rest :
  all_chars cls g = true ->
  match rest with
  | EmptyString => true
  | String c _ => negb (cls c)
  end = true ->
  Str.take_while cls (g ++ rest) = g.
Proof.
  intros Hg Hrest. induction g as [|c g IH]; simpl in *.
  - destruct rest as [|c r]; [reflexivity|]. simpl.
    destruct (cls c); [discriminate | reflexivity].
  - apply andb_true_iff in Hg as [Hc Hg]. rewrite Hc, IH; auto.
Qed.

Lemma substring_whole x : forall m, (String.length x <= m)%nat -> substring 0 m x = x.
Proof.
  induction x as [|c x IH]; intros m Hm; destruct m; simpl in *; try reflexivity; try lia.
  rewrite IH; [reflexivity | lia].
Qed.

Lemma substring_skip lit x m :
  (String.length x <= m)%nat -> substring (String.length lit) m (lit ++ x) = x.
Proof.
  intros Hm. induction lit as [|c lit IH]; simpl; [now apply substring_whole | exact IH].
Qed.

Lemma length_append (a b : string) :
  String.length (a ++ b) = (String.length a + String.length b)%nat.
Proof. induction a as [|c a IH]; simpl; [reflexivity | now rewrite IH]. Qed.

(** A match at the head of the line: the literal, then a run of the class
    that ends at the end of the line or before a character outside the
    class. *)
Lemma search_group_head lit cls g rest :
  g <> EmptyString -> all_chars cls g = true ->
  match rest with
  | EmptyString => true
  | String c _ => negb (cls c)
  end = true ->
  Re.search_group lit cls (lit ++ g ++ rest) = Some g.
Proof.
  intros Hne Hg Hrest.
  assert (Hhere :
    (if prefix lit (lit ++ g ++ rest)
     then match Str.take_while cls
                  (substring (String.length lit) (String.length (lit ++ g ++ rest))
                             (lit ++ g ++ rest)) with
          | EmptyString => None
          | g' => Some g'
          end
     else None) = Some g).
  { assert (Hp : prefix lit (lit ++ g ++ rest) = true) by (apply prefix_app; eauto).
    rewrite Hp, substring_skip by (rewrite !length_append; lia).
    rewrite take_while_all by assumption.
    destruct g; [contradiction | reflexivity]. }
  destruct (lit ++ g ++ rest) eqn:E; cbn [Re.search_group]; now rewrite Hhere.
Qed.

Lemma is_digit_not_minus c : Re.is_digit c = true -> c <> "-"%char.
Proof. intros H ->. discriminate. Qed.

Lemma sign_of_digit_string c r :
  c <> "-"%char ->
  match String c r with
  | String "-"%char r' => (true, r')
  | _ => (false, String c r)
  end = (false, String c r).
Proof.
  intros Hc.
  destruct c as [[] [] [] [] [] [] [] []]; try reflexivity.
  now contradiction Hc.
Qed.

Lemma drop_append a b : Float.drop (String.length a) (a ++ b) = b.
Proof. induction a as [|c a IH]; simpl; [now destruct b | exact IH]. Qed.

Lemma take_while_whole cls s : all_chars cls s = true -> Str.take_while cls s = s.
Proof.
  induction s as [|c s IH]; simpl; [reflexivity|].
  intros H. apply andb_true_iff in H as [Hc Hs]. now rewrite Hc, IH.
Qed.

Lemma drop_whole s : Float.drop (String.length s) s = EmptyString.
Proof. induction s as [|c s IH]; simpl; [reflexivity | exact IH]. Qed.

(** A decimal [ip.fp] converts, to the float nearest to it. *)
Lemma of_string_decimal ip fp :
  all_chars Re.is_digit ip = true -> all_chars Re.is_digit fp = true ->
  ip <> EmptyString ->
  Float.of_string (ip ++ "." ++ fp)
  = Ok (Float.of_decimal false (Float.digits_value 0 (ip ++ fp)) (String.length fp)).
Proof.
  intros Hip Hfp Hne. unfold Float.of_string.
  destruct ip as [|c ip']; [contradiction|].
  pose proof Hip as Hip'. cbn [all_chars] in Hip'. apply andb_true_iff in Hip' as [Hc _].
  change (String c ip' ++ "." ++ fp) with (String c (ip' ++ "." ++ fp)).
  cbv iota.
  rewrite (sign_of_digit_string c _ (is_digit_not_minus c Hc)).
  change (String c (ip' ++ "." ++ fp)) with (String c ip' ++ "." ++ fp).
  rewrite (take_while_all Re.is_digit (String c ip') ("." ++ fp) Hip eq_refl).
  rewrite drop_append. change ("." ++ fp) with (String "."%char fp). cbv iota.
  rewrite (take_while_whole Re.is_digit fp Hfp), drop_whole.
  reflexivity.
Qed.

Lemma contains_no_first c n s :
  all_chars (fun a => negb (Ascii.eqb a c)) s = true ->
  Str.contains (String c n) s = false.
Proof.
  induction s as [|a s IH]; cbn [Str.contains all_chars prefix]; [reflexivity|].
  intros H. apply andb_true_iff in H as [Ha Hs].
  rewrite (IH Hs), orb_false_r.
  destruct (ascii_dec c a) as [->|]; [|reflexivity].
  rewrite Ascii.eqb_refl in Ha. discriminate.
Qed.

Lemma digit_not_semicolon c : Re.is_digit c = true -> negb (Ascii.eqb c ";"%char) = true.
Proof. intros H. destruct (Ascii.eqb_spec c ";"%char) as [->|]; [discriminate | reflexivity]. Qed.

(** X14: a line that is a height comment of either layout, the prefix
    followed by digits, a dot and digits, is read without an exception, as
    the float nearest to the decimal written. *)
Theorem height_comment_is_read ip fp :
  all_chars Re.is_digit ip = true -> all_chars Re.is_digit fp = true ->
  ip <> EmptyString ->
  get_z_height_from_comment ("; Z_HEIGHT: " ++ ip ++ "." ++ fp ++ LF)
  = Ok (Some (Float.of_decimal false (Float.digits_value 0 (ip ++ fp)) (String.length fp)))
  /\
  get_z_height_from_comment (";Z:" ++ ip ++ "." ++ fp ++ LF)
  = Ok (Some (Float.of_decimal false (Float.digits_value 0 (ip ++ fp)) (String.length fp))).
Proof.
  intros Hip Hfp Hne.
  assert (Hg : all_chars Re.digit_or_dot (ip ++ "." ++ fp) = true).
  { rewrite all_chars_app. apply andb_true_iff. split.
    - eapply all_chars_impl; [|exact Hip]. intros c Hc. unfold Re.digit_or_dot. now rewrite Hc.
    - cbn [append all_chars]. apply andb_true_iff. split; [reflexivity|].
      eapply all_chars_impl; [|exact Hfp]. intros c Hc. unfold Re.digit_or_dot. now rewrite Hc. }
  assert (Hgne : ip ++ "." ++ fp <> EmptyString) by (destruct ip; [contradiction | discriminate]).
  assert (Hassoc : forall lit, lit ++ ip ++ "." ++ fp ++ LF = lit ++ (ip ++ "." ++ fp) ++ LF).
  { intros lit. f_equal. now rewrite !append_assoc. }
  unfold get_z_height_from_comment. split.
  - assert (Hc : Str.contains "; Z_HEIGHT:" ("; Z_HEIGHT: " ++ ip ++ "." ++ fp ++ LF) = true).
    { apply contains_spec. exists "", (" " ++ ip ++ "." ++ fp ++ LF). reflexivity. }
    rewrite Hc, Hassoc.
    rewrite (search_group_head "; Z_HEIGHT: " Re.digit_or_dot _ LF Hgne Hg eq_refl).
    rewrite of_string_decimal by assumption. reflexivity.
  - assert (Hn : Str.contains "; Z_HEIGHT:" (";Z:" ++ ip ++ "." ++ fp ++ LF) = false).
    { change (";Z:" ++ ip ++ "." ++ fp ++ LF)
        with (String ";" (String "Z" (String ":" (ip ++ "." ++ fp ++ LF)))).
      cbn [Str.contains]. 
      replace (prefix "; Z_HEIGHT:" (String ";" (String "Z" (String ":" (ip ++ "." ++ fp ++ LF)))))
        with false by reflexivity.
      cbn [orb]. apply contains_no_first.
      cbn [all_chars]. rewrite !all_chars_app. cbn [all_chars LF].
      rewrite (all_chars_impl _ _ ip digit_not_semicolon Hip).
      rewrite (all_chars_impl _ _ fp digit_not_semicolon Hfp). reflexivity. }
    assert (Hc : Str.contains ";Z:" (";Z:" ++ ip ++ "." ++ fp ++ LF) = true).
    { apply contains_spec. exists "", (ip ++ "." ++ fp ++ LF). reflexivity. }
    rewrite Hn, Hc, Hassoc.
    rewrite (search_group_head ";Z:" Re.digit_or_dot _ LF Hgne Hg eq_refl).
    rewrite of_string_decimal by assumption. reflexivity.
Qed.

Lemma height_comment_is_read_witness :
  get_z_height_from_comment ("; Z_HEIGHT: " ++ "1" ++ "." ++ "0" ++ LF)
  = Ok (Some (Float.of_decimal false (Float.digits_value 0 ("1" ++ "0")) (String.length "0")))
  /\
  get_z_height_from_comment (";Z:" ++ "1" ++ "." ++ "0" ++ LF)
  = Ok (Some (Float.of_decimal false (Float.digits_value 0 ("1" ++ "0")) (String.length "0"))).
Proof.
  apply (height_comment_is_read "1" "0"); [reflexivity | reflexivity | discriminate].
Defined.
